(** * convert_raw_to_hdf5: a shallow embedding of the Decathlon converter

    The script [single-node/convert_raw_to_hdf5.py] reads the manifest of a
    Medical Decathlon task, splits the sample indices into a training and a
    validation list, and for every sample crops, normalises and appends the
    volume to one of four growable datasets of an HDF5 container.

    The embedding follows the script function by function.  Python integers
    are [Z], array dimensions and indices are [nat], an [ndarray] is a shape
    together with an indexing function (the view semantics of numpy's basic
    slicing), the HDF5 file is a finite map from dataset names to datasets,
    and statements that may raise run in a state-and-exception monad. *)

From Stdlib Require Import ZArith QArith List Sorted Lia Ascii.
From Stdlib Require PrimFloat Uint63 SpecFloat FloatOps.
From stdpp Require Import gmap strings list pretty.

Close Scope Q_scope.
Local Open Scope Z_scope.

(** ** Exceptions and results

    [OSError] stands for its whole family ([IOError] is the same class,
    [FileNotFoundError] a subclass). *)

Inductive exn : Type :=
| ValueError (msg : string)
| IndexError (msg : string)
| KeyError (key : string)
| NameError (name : string)
| TypeError (msg : string)
| OSError (path : string).

Inductive result (A : Type) : Type :=
| Ok (a : A)
| Raise (e : exn).

Arguments Ok {A} a.
Arguments Raise {A} e.

(** ** Python slicing

    [a[start:stop]] with step 1 on an axis of length [len]: a negative bound
    counts from the end, and both bounds are clipped to [0, len]. *)

Definition adjust_index (len i : Z) : Z :=
  if i <? 0 then Z.max (i + len) 0 else Z.min i len.

(** First selected index and number of selected elements. *)
Definition slice_range (len : nat) (start stop : Z) : nat * nat :=
  let s := adjust_index (Z.of_nat len) start in
  let e := adjust_index (Z.of_nat len) stop in
  (Z.to_nat s, Z.to_nat (e - s)).

(** ** Arrays *)

Record ndarray (A : Type) : Type := mk_ndarray {
  shape : list nat;
  get : list nat -> A
}.

Arguments mk_ndarray {A} shape get.
Arguments shape {A} n.
Arguments get {A} n idx.

Definition in_bounds (sh idx : list nat) : Prop := Forall2 lt idx sh.

(** Two arrays are the same array when they have the same shape and agree
    at every index of that shape. *)
Definition array_eq {A} (a b : ndarray A) : Prop :=
  shape a = shape b /\
  forall idx, in_bounds (shape a) idx -> get a idx = get b idx.

(** [img[startx:endx, starty:endy, startz:endz]] (and the same with a
    trailing [:] on a fourth axis): a view on the first three axes. *)
Definition slice_xyz {A} (img : ndarray A)
    (startx endx starty endy startz endz : Z) : ndarray A :=
  match shape img with
  | x :: y :: z :: rest =>
      let '(ox, nx) := slice_range x startx endx in
      let '(oy, ny) := slice_range y starty endy in
      let '(oz, nz) := slice_range z startz endz in
      {| shape := nx :: ny :: nz :: rest;
         get := fun idx =>
           match idx with
           | i :: j :: k :: r =>
               get img ((ox + i) :: (oy + j) :: (oz + k) :: r)%nat
           | _ => get img idx
           end |}
  | _ => img
  end.

(** ** [crop_center] *)

(** Line 66: [startx = max(x//2-(cropx//2), 0)]. *)
Definition crop_start (size crop : Z) : Z := Z.max (size / 2 - crop / 2) 0.

(** Line 71: [endx = min(startx + cropx, x)]. *)
Definition crop_end (size crop : Z) : Z :=
  Z.min (crop_start size crop + crop) size.

Definition crop_center {A} (img : ndarray A) (cropx cropy cropz : Z)
    : result (ndarray A) :=
  let dims :=
    match shape img with
    | [x; y; z; c] => Some (x, y, z)
    | [x; y; z] => Some (x, y, z)
    | _ => None
    end in
  match dims with
  | None => Raise (ValueError "unpack")
  | Some (x, y, z) =>
      let startx := crop_start (Z.of_nat x) cropx in
      let starty := crop_start (Z.of_nat y) cropy in
      let startz := crop_start (Z.of_nat z) cropz in
      let endx := crop_end (Z.of_nat x) cropx in
      let endy := crop_end (Z.of_nat y) cropy in
      let endz := crop_end (Z.of_nat z) cropz in
      Ok (slice_xyz img startx endx starty endy startz endz)
  end.

(** What the crop does along one axis of length [n] for a requested
    size [s]: [lo] elements are trimmed on the left, [n'] are kept. *)
Definition axis_cropped (n : nat) (s : Z) (lo n' : nat) : Prop :=
  (s <= Z.of_nat n ->
     Z.of_nat n' = s /\
     Z.abs (Z.of_nat lo - (Z.of_nat n - Z.of_nat lo - Z.of_nat n')) <= 1) /\
  (Z.of_nat n < s -> n' = n /\ lo = 0%nat).

(** The number of elements [a[start:end]] keeps of an axis of length [n]
    when [start] and [end] are the crop window for the size [s]. *)
Definition kept (n : nat) (s : Z) : nat := Z.to_nat (Z.min s (Z.of_nat n)).

(** ** numpy operations used by the pipeline *)

(** A negative axis counts from the last one. *)
Definition norm_axis (ndim : nat) (axis : Z) : nat :=
  Z.to_nat (if axis <? 0 then axis + Z.of_nat ndim else axis).

Definition swap_at {A} (i j : nat) (l : list A) : list A :=
  match l !! i, l !! j with
  | Some a, Some b => <[i := b]> (<[j := a]> l)
  | _, _ => l
  end.

(** [np.swapaxes(a, axis1, axis2)]; the callers only pass axes that exist. *)
Definition swapaxes {A} (a : ndarray A) (axis1 axis2 : Z) : ndarray A :=
  let i := norm_axis (length (shape a)) axis1 in
  let j := norm_axis (length (shape a)) axis2 in
  {| shape := swap_at i j (shape a);
     get := fun idx => get a (swap_at i j idx) |}.

(** [np.expand_dims(a, -1)]: a trailing axis of length one. *)
Definition expand_dims_last {A} (a : ndarray A) : ndarray A :=
  {| shape := shape a ++ [1%nat];
     get := fun idx => get a (take (length idx - 1) idx) |}.

(** [a > c], elementwise. *)
Definition greater (a : ndarray Z) (c : Z) : ndarray bool :=
  {| shape := shape a; get := fun idx => c <? get a idx |}.

(** [a[mask] = v]: assignment through a boolean mask of the same shape. *)
Definition assign_where {A} (a : ndarray A) (mask : ndarray bool) (v : A)
    : ndarray A :=
  {| shape := shape a;
     get := fun idx => if get mask idx then v else get a idx |}.

(** Lines 192 and 219: [msk[msk > 1] = 1  # Combine all masks]. *)
Definition combine_masks (msk : ndarray Z) : ndarray Z :=
  assign_where msk (greater msk 1) 1.

(** All indices of a shape, in C order. *)
Fixpoint indices (sh : list nat) : list (list nat) :=
  match sh with
  | [] => [[]]
  | n :: sh' => i ← seq 0 n; (fun idx => i :: idx) <$> indices sh'
  end.

(** The elements of an array in C order. *)
Definition ravel {A} (a : ndarray A) : list A := get a <$> indices (shape a).

(** [img[:, :, :, channel]]. *)
Definition take_channel {A} (img : ndarray A) (channel : nat) : ndarray A :=
  match shape img with
  | x :: y :: z :: c :: rest =>
      {| shape := x :: y :: z :: rest;
         get := fun idx =>
           match idx with
           | i :: j :: k :: r => get img (i :: j :: k :: channel :: r)
           | _ => get img idx
           end |}
  | _ => img
  end.

(** [img[:, :, :, channel] = v]. *)
Definition set_channel {A} (img : ndarray A) (channel : nat) (v : ndarray A)
    : ndarray A :=
  {| shape := shape img;
     get := fun idx =>
       match idx with
       | i :: j :: k :: c :: r =>
           if decide (c = channel) then get v (i :: j :: k :: r)
           else get img idx
       | _ => get img idx
       end |}.

(** The floating-point numbers of the arrays and the numpy reductions on
    them.  [np_mean] and [np_std] see the shape of their operand and its
    elements in C order.  [of_int] is the conversion of an integer voxel to
    floating point, [to_int] the cast of a floating-point value that is
    stored into an array of integers (C truncation). *)
Class NumpyFloat (F : Type) : Type := {
  fsub : F -> F -> F;
  fdiv : F -> F -> F;
  np_mean : list nat -> list F -> F;
  np_std : list nat -> list F -> F;
  of_int : Z -> F;
  to_int : F -> Z
}.

(** The voxel type of an array, as far as arithmetic on it goes: how a
    voxel enters a floating-point computation, and how a floating-point
    value is stored back into the array (the cast of an assignment in
    place). *)
Record dtype (F A : Type) : Type := {
  to_float : A -> F;
  from_float : F -> A
}.

Arguments to_float {F A} d a.
Arguments from_float {F A} d x.

(** ** The splitter (lines 293 to 300) *)

(** The value of [--split] is whatever Python's [float] parses; the draws
    of [np.random.random] are finite numbers of [[0, 1)]. *)
Inductive pyfloat : Type :=
| Finite (q : Q)
| PosInf
| NegInf
| NaN.

Definition float_lt (a b : pyfloat) : bool :=
  match a, b with
  | Finite x, Finite y => Qnum x * QDen y <? Qnum y * QDen x
  | Finite _, PosInf | NegInf, Finite _ | NegInf, PosInf => true
  | _, _ => false
  end.

Definition float_ge (a b : pyfloat) : bool :=
  match a, b with
  | Finite x, Finite y => Qnum y * QDen x <=? Qnum x * QDen y
  | Finite _, NegInf | PosInf, Finite _ | PosInf, NegInf => true
  | PosInf, PosInf | NegInf, NegInf => true
  | _, _ => false
  end.

(** [a[mask]] for a one-dimensional array and a boolean mask. *)
Fixpoint boolean_index {A} (a : list A) (mask : list bool) : list A :=
  match a, mask with
  | x :: a', b :: mask' =>
      if b then x :: boolean_index a' mask' else boolean_index a' mask'
  | _, _ => []
  end.

Section Splitter.
(** The stream of doubles that [np.random.random] yields after
    [np.random.seed(816)]. *)
Variable random_sample : nat -> Q.

Definition idxList (numFiles : nat) : list nat := seq 0 numFiles.

Definition randomList (numFiles : nat) : list pyfloat :=
  (fun i => Finite (random_sample i)) <$> seq 0 numFiles.

Definition trainList (numFiles : nat) (split : pyfloat) : list nat :=
  boolean_index (idxList numFiles)
                ((fun r => float_lt r split) <$> randomList numFiles).

Definition validateList (numFiles : nat) (split : pyfloat) : list nat :=
  boolean_index (idxList numFiles)
                ((fun r => float_ge r split) <$> randomList numFiles).
End Splitter.

(** ** Rows of an array along its first axis *)

Definition row {A} (a : ndarray A) (i : nat) : ndarray A :=
  {| shape := tail (shape a); get := fun idx => get a (i :: idx) |}.

Definition rows_of {A} (a : ndarray A) : list (ndarray A) :=
  row a <$> seq 0 (hd 0%nat (shape a)).

(** A value written into a selection of shape [sel] is broadcast to it: an
    axis of length one is repeated. *)
Definition broadcastable (src sel : list nat) : bool :=
  (length src =? length sel)%nat &&
  forallb (fun p => (fst p =? 1)%nat || (fst p =? snd p)%nat) (zip src sel).

Definition broadcast_to {A} (sel : list nat) (v : ndarray A) : ndarray A :=
  if decide (shape v = sel) then v
  else {| shape := sel;
          get := fun idx =>
            get v (zip_with (fun t i => if (t =? 1)%nat then 0%nat else i)
                            (shape v) idx) |}.

(** [x[i]] on a list or a tuple. *)
Definition getitem {A} (l : list A) (i : nat) : result A :=
  match l !! i with
  | Some x => Ok x
  | None => Raise (IndexError "index out of range")
  end.

#[export] Instance result_ret : MRet result := @Ok.

#[export] Instance result_bind : MBind result :=
  fun A B k r => match r with Ok a => k a | Raise e => Raise e end.

(** ** Command line, manifest and file system *)

(** The parsed command line ([args], lines 36 to 51). *)
Record Args : Type := {
  data_path : string;
  save_path : string;
  output_filename : string;
  resize : Z;
  split : pyfloat
}.

(** The defaults of the parser (lines 36 to 49). *)
Definition default_args : Args :=
  {| data_path := "../../data/decathlon/Task01_BrainTumour/";
     save_path := "../../data/decathlon/";
     output_filename := "decathlon_brats.h5";
     resize := 144;
     split := Finite (85 # 100) |}.

(** [dataset.json] once parsed: the keys the script reads. *)
Module Json.
Record sample : Type := { image : string; label : string }.

(** The value under ["modalities"]: the mapping from channel number to
    channel name of the Decathlon manifests (a JSON object), or the same
    written as a list of [number, name] pairs (a JSON array of arrays of
    two strings). *)
Inductive modalities_value : Type :=
| Mapping (items : list (string * string))
| Pairs (items : list (string * string)).

Record manifest : Type := {
  name : string;
  description : string;
  licence : string;
  reference : string;
  release : string;
  modalities : modalities_value;
  numTraining : nat;
  training : list sample
}.
End Json.

(** [posixpath.join] of two components. *)
Definition starts_with_sep (s : string) : bool :=
  match s with
  | String c _ => Ascii.eqb c "/"%char
  | EmptyString => false
  end.

Fixpoint ends_with_sep (s : string) : bool :=
  match s with
  | EmptyString => false
  | String c EmptyString => Ascii.eqb c "/"%char
  | String _ rest => ends_with_sep rest
  end.

Definition path_join (a b : string) : string :=
  if starts_with_sep b then b
  else if String.eqb a "" || ends_with_sep a then a +:+ b
  else a +:+ "/" +:+ b.

(** What [open] followed by [json.load] does on a path.  A manifest that
    is read is taken to have every key the script looks up. *)
Inductive read_outcome : Type :=
| ReadOk (m : Json.manifest)
| ReadIOError
| ReadDecodeError.

(** What the script prints on standard output. *)
Inductive output : Type :=
| Line (s : string)
| ReprOf (a : Args).

Section Pipeline.
Context {F : Type} `{NumpyFloat F}.

(** *** Images *)

(** A floating-point array computes in its own type and stores without a
    cast; an integer array is converted for the computation, and a value
    assigned into it is cast back. *)
Definition float_dtype : dtype F F := {| to_float := id; from_float := id |}.

Definition int_dtype : dtype F Z := {| to_float := of_int; from_float := to_int |}.

(** [np.array(nib.load(path).dataobj)] on an image file: an array of the
    voxel type of the file, floating point or integer. *)
Inductive image : Type :=
| FloatImage (a : ndarray F)
| IntImage (a : ndarray Z).

(** [img.shape]. *)
Definition image_shape (img : image) : list nat :=
  match img with
  | FloatImage a => shape a
  | IntImage a => shape a
  end.

(** An operation of numpy that does not look at the voxels' type. *)
Definition on_image (f : forall A, ndarray A -> result (ndarray A))
    (img : image) : result image :=
  match img with
  | FloatImage a => a' ← f F a; Ok (FloatImage a')
  | IntImage a => a' ← f Z a; Ok (IntImage a')
  end.

(** *** [normalize_img] *)

(** One turn of the loop of lines 90 to 93, on an array of voxel type
    [dt]: the right-hand side is computed in floating point, and the
    assignment to [img[:, :, :, channel]] casts it to the type of [img]. *)
Definition normalize_channel {A} (dt : dtype F A) (img : ndarray A)
    (channel : nat) : ndarray A :=
  let ch := take_channel img channel in
  let mean := np_mean (shape ch) (to_float dt <$> ravel ch) in
  let std := np_std (shape ch) (to_float dt <$> ravel ch) in
  set_channel img channel
    {| shape := shape ch;
       get := fun idx =>
         from_float dt (fdiv (fsub (to_float dt (get ch idx)) mean) std) |}.

Definition normalize_array {A} (dt : dtype F A) (img : ndarray A)
    : result (ndarray A) :=
  match shape img !! 3%nat with
  | None => Raise (IndexError "tuple index out of range")
  | Some channels => Ok (foldl (normalize_channel dt) img (seq 0 channels))
  end.

Definition normalize_img (img : image) : result image :=
  match img with
  | FloatImage a => a' ← normalize_array float_dtype a; Ok (FloatImage a')
  | IntImage a => a' ← normalize_array int_dtype a; Ok (IntImage a')
  end.

(** *** The world the script runs in *)

(** The part of the machine the script only reads. *)
Record environment : Type := {
  (** [os.makedirs] succeeds *)
  makedirs_ok : string -> bool;
  isdir : string -> bool;
  path_exists : string -> bool;
  open_json : string -> read_outcome;
  (** [np.array(nib.load(path).dataobj)] on an image file (voxels of the
      file's type) and on a label file (integer voxels) *)
  load_image : string -> option image;
  load_label : string -> option (ndarray Z);
  random_sample : nat -> Q
}.

(** An HDF5 dataset: the metadata entries are one-dimensional arrays of
    variable-length strings; a numeric dataset is the list of its rows
    along the first axis, each of shape [rowshape]. *)
Inductive dset_data : Type :=
| StrData (values : list string)
| NumData (rowshape : list nat) (rows : list (ndarray F)).

Record dataset : Type := {
  data : dset_data;
  attrs : gmap string (list (string * string))
}.

(** The part of the machine the script changes. *)
Record world : Type := {
  console : list output;
  removed : list string;
  (** the path given to [h5py.File], once it is opened *)
  h5_path : option string;
  hdf_file : gmap string dataset
}.

Definition initial_world : world :=
  {| console := []; removed := []; h5_path := None; hdf_file := ∅ |}.

(** *** Statements: state and exceptions *)

Definition M (A : Type) : Type := world -> world * result A.

Definition ret {A} (a : A) : M A := fun w => (w, Ok a).

Definition raise {A} (e : exn) : M A := fun w => (w, Raise e).

Definition bind {A B} (m : M A) (k : A -> M B) : M B :=
  fun w =>
    match m w with
    | (w', Ok a) => k a w'
    | (w', Raise e) => (w', Raise e)
    end.

Definition lift {A} (r : result A) : M A := fun w => (w, r).

Definition modify (f : world -> world) : M unit := fun w => (f w, Ok tt).

#[local] Instance M_ret : MRet M := @ret.

#[local] Instance M_bind : MBind M := fun A B k m => bind m k.

(** [for x in l: body], threading the local variables [s] of the loop. *)
Fixpoint for_each {A S} (body : S -> A -> M S) (s : S) (l : list A) : M S :=
  match l with
  | [] => ret s
  | x :: l' => s' ← body s x; for_each body s' l'
  end.

Definition print (s : string) : M unit :=
  modify (fun w =>
    {| console := console w ++ [Line s]; removed := removed w;
       h5_path := h5_path w; hdf_file := hdf_file w |}).

Definition print_repr (a : Args) : M unit :=
  modify (fun w =>
    {| console := console w ++ [ReprOf a]; removed := removed w;
       h5_path := h5_path w; hdf_file := hdf_file w |}).

(** [os.remove(path)], recorded as a call; the removal of a file that
    [os.path.exists] has just found is taken to succeed. *)
Definition os_remove (path : string) : M unit :=
  modify (fun w =>
    {| console := console w; removed := removed w ++ [path];
       h5_path := h5_path w; hdf_file := hdf_file w |}).

(** *** h5py *)

Definition set_hdf (f : gmap string dataset) (w : world) : world :=
  {| console := console w; removed := removed w;
     h5_path := h5_path w; hdf_file := f |}.

(** [h5py.File(filename, "w")]: a new, empty file.  Creating the file is
    taken to succeed (its directory is there and can be written to). *)
Definition h5py_File (filename : string) : M unit :=
  modify (fun w =>
    {| console := console w; removed := removed w;
       h5_path := Some filename; hdf_file := ∅ |}).

(** [create_dataset(name, (n,), dtype=special_dtype(vlen=str))]: [n]
    empty strings. *)
Definition create_dataset_str (name : string) (n : nat) : M unit :=
  fun w =>
    match hdf_file w !! name with
    | Some _ => (w, Raise (ValueError "name already exists"))
    | None =>
        (set_hdf (<[name := {| data := StrData (replicate n "");
                               attrs := ∅ |}]> (hdf_file w)) w, Ok tt)
    end.

Definition zeros (sh : list nat) : ndarray F :=
  {| shape := sh; get := fun _ => of_int 0 |}.

(** [create_dataset(name, shape, maxshape=maxshape, dtype=float,
    compression="gzip")]: zero-filled, growable where [maxshape] is
    [None].  The callers pass the shape itself as bound of the other
    axes. *)
Definition create_dataset (name : string) (sh : list nat)
    (maxshape : list (option nat)) : M unit :=
  fun w =>
    match sh with
    | n :: rs =>
        if negb (length maxshape =? length sh)%nat
        then (w, Raise (ValueError "maxshape must have same rank as shape"))
        else
          match hdf_file w !! name with
          | Some _ => (w, Raise (ValueError "name already exists"))
          | None =>
              (set_hdf (<[name := {| data := NumData rs (replicate n (zeros rs));
                                     attrs := ∅ |}]> (hdf_file w)) w, Ok tt)
          end
    | [] => (w, Raise (ValueError "maxshape must have same rank as shape"))
    end.

(** [dset.shape[0]]. *)
Definition dset_len (name : string) : M nat :=
  fun w =>
    match hdf_file w !! name with
    | Some d =>
        match data d with
        | NumData _ rows => (w, Ok (length rows))
        | StrData values => (w, Ok (length values))
        end
    | None => (w, Raise (KeyError name))
    end.

(** [dset.resize(size, axis=0)]: new rows are zero-filled. *)
Definition dset_resize (name : string) (size : nat) : M unit :=
  fun w =>
    match hdf_file w !! name with
    | Some d =>
        match data d with
        | NumData rs rows =>
            let rows' :=
              take size (rows ++ replicate (size - length rows) (zeros rs)) in
            (set_hdf (<[name := {| data := NumData rs rows';
                                   attrs := attrs d |}]> (hdf_file w)) w, Ok tt)
        | StrData _ =>
            (w, Raise (TypeError "Only chunked datasets can be resized"))
        end
    | None => (w, Raise (KeyError name))
    end.

(** [dset[start:stop, :] = img]. *)
Definition dset_write (name : string) (start stop : Z) (img : ndarray F)
    : M unit :=
  fun w =>
    match hdf_file w !! name with
    | Some d =>
        match data d with
        | NumData rs rows =>
            let '(a, count) := slice_range (length rows) start stop in
            let sel := count :: rs in
            if broadcastable (shape img) sel then
              let rows' :=
                take a rows ++ rows_of (broadcast_to sel img)
                     ++ drop (a + count) rows in
              (set_hdf (<[name := {| data := NumData rs rows';
                                     attrs := attrs d |}]> (hdf_file w)) w,
               Ok tt)
            else (w, Raise (TypeError "Can't broadcast"))
        | StrData _ => (w, Raise (TypeError "No conversion path for dtype"))
        end
    | None => (w, Raise (KeyError name))
    end.

(** [dset[:] = img]. *)
Definition dset_write_all (name : string) (img : ndarray F) : M unit :=
  n ← dset_len name; dset_write name 0 (Z.of_nat n) img.

(** [hdf_file[name].attrs[key] = value]: the dataset is looked up first;
    h5py then stores the value through a numpy array.  A list of pairs of
    strings is a two-dimensional array of strings; a mapping is an array of
    type object, for which HDF5 has no type. *)
Definition set_attr (name key : string) (value : Json.modalities_value)
    : M unit :=
  fun w =>
    match hdf_file w !! name with
    | Some d =>
        match value with
        | Json.Pairs items =>
            (set_hdf (<[name := {| data := data d;
                                   attrs := <[key := items]> (attrs d) |}]>
                        (hdf_file w)) w, Ok tt)
        | Json.Mapping _ =>
            (w, Raise (TypeError "Object dtype dtype('O') has no native HDF5 equivalent"))
        end
    | None => (w, Raise (KeyError name))
    end.

(** *** [convert_raw_data_to_hdf5] *)

(** [np.array(nib.load(path).dataobj)]. *)
Definition nib_load {A} (load : string -> option A) (path : string)
    : result A :=
  match load path with
  | Some v => Ok v
  | None => Raise (OSError path)
  end.

(** Integer voxels become [float] when they are written into a dataset of
    that type. *)
Definition as_float (msk : ndarray Z) : ndarray F :=
  {| shape := shape msk; get := fun idx => of_int (get msk idx) |}.

(** An image as a dataset of type [float] stores it. *)
Definition stored (img : image) : ndarray F :=
  match img with
  | FloatImage a => a
  | IntImage a => as_float a
  end.

Variable env : environment.
Variable args : Args.

(** Lines 131 to 136 (and 160 to 165): the image of sample [idx], ready
    to be written. *)
Definition read_image (dataDir : string) (fileIdx : list Json.sample)
    (idx : nat) : result (ndarray F) :=
  sample ← getitem fileIdx idx;
  let data_filename := path_join dataDir (Json.image sample) in
  img ← nib_load (load_image env) data_filename;
  img ← on_image (fun A a => crop_center a (resize args) (resize args)
                                         (resize args)) img;
  img ← normalize_img img;
  img ← on_image (fun A a => Ok (swapaxes a 0 (-2))) img;
  Ok (stored img).

(** Lines 188 to 193 (and 215 to 220): the mask of sample [idx], ready to
    be written. *)
Definition read_mask (dataDir : string) (fileIdx : list Json.sample)
    (idx : nat) : result (ndarray F) :=
  sample ← getitem fileIdx idx;
  let data_filename := path_join dataDir (Json.label sample) in
  msk ← nib_load (load_label env) data_filename;
  msk ← crop_center msk (resize args) (resize args) (resize args);
  let msk := combine_masks msk in
  let msk := expand_dims_last (swapaxes msk 0 (-1)) in
  Ok (as_float msk).

(** Lines 137 to 150 (and 166 to 179, 194 to 207, 221 to 234): create the
    dataset [dset] from the first volume, extend it by every later one.
    The result is the new value of [first]. *)
Definition append_volume (dset : string) (first : bool) (img : ndarray F)
    : M bool :=
  num_rows ← lift (getitem (shape img) 0);
  if first then
    d1 ← lift (getitem (shape img) 1);
    d2 ← lift (getitem (shape img) 2);
    d3 ← lift (getitem (shape img) 3);
    create_dataset dset (shape img) [None; Some d1; Some d2; Some d3];;
    dset_write_all dset img;;
    ret false
  else
    row ← dset_len dset;
    dset_resize dset (row + num_rows);;
    dset_write dset (Z.of_nat row) (Z.of_nat (row + num_rows)) img;;
    ret false.

(** The body of the four loops (lines 131 to 150, 160 to 179, 188 to 207
    and 215 to 234): they differ in what is read ([read], an image or a
    mask) and in the dataset written ([dset]). *)
Definition save_volume (read : nat -> result (ndarray F)) (dset : string)
    (first : bool) (idx : nat) : M bool :=
  img ← lift (read idx);
  append_volume dset first img.

(** Lines 109 to 124, "Save information about the Decathlon dataset": each
    entry is created and its handle bound to a local name; the next line
    binds the same name to the manifest's string. *)
Definition save_information (json_data : Json.manifest) : M unit :=
  create_dataset_str "license" 100;;
  let license := Json.licence json_data in
  create_dataset_str "name" 100;;
  let dataset_name := Json.name json_data in
  create_dataset_str "description" 200;;
  let description := Json.description json_data in
  create_dataset_str "reference" 100;;
  let reference := Json.reference json_data in
  create_dataset_str "release" 50;;
  let release := Json.release json_data in
  ret tt.

(** Lines 126 to 237: the four loops and what stands between them. *)
Definition save_datasets (trainIdx validateIdx : list nat)
    (fileIdx : list Json.sample) (filename dataDir : string)
    (json_data : Json.manifest) : M unit :=
  print "Step 1 of 4. Save training set images.";;
  for_each (save_volume (read_image dataDir fileIdx) "imgs_train")
           true trainIdx;;
  set_attr "imgs_train" "modalities" (Json.modalities json_data);;
  print "Step 2 of 4. Save validation set images.";;
  for_each (save_volume (read_image dataDir fileIdx) "imgs_test")
           true validateIdx;;
  set_attr "imgs_test" "modalities" (Json.modalities json_data);;
  print "Step 3 of 4. Save training set masks.";;
  for_each (save_volume (read_mask dataDir fileIdx) "msks_train")
           true trainIdx;;
  print "Step 4 of 4. Save validation set masks.";;
  for_each (save_volume (read_mask dataDir fileIdx) "msks_test")
           true validateIdx;;
  print "Finished processing.";;
  print ("HDF5 saved to " +:+ filename).

Definition convert_raw_data_to_hdf5 (trainIdx validateIdx : list nat)
    (fileIdx : list Json.sample) (filename dataDir : string)
    (json_data : Json.manifest) : M unit :=
  h5py_File filename;;
  save_information json_data;;
  save_datasets trainIdx validateIdx fileIdx filename dataDir json_data.

(** *** The script's main part (lines 239 to 306) *)

(** Reading a local variable that may not have been bound. *)
Definition local_var {A} (name : string) (value : option A) : M A :=
  match value with
  | Some v => ret v
  | None => raise (NameError name)
  end.

Definition main : M unit :=
  print ("Converting Decathlon raw Nifti data files to single "
         +:+ "training and validation HDF5 data file.");;
  print_repr args;;
  let save_dir :=
    path_join (save_path args)
              (pretty (resize args) +:+ "x" +:+ pretty (resize args) +:+ "/") in
  (if makedirs_ok env save_dir then ret tt
   else if isdir env save_dir then ret tt
   else raise (OSError save_dir));;
  let filename := path_join save_dir (output_filename args) in
  (if path_exists env filename then
     print ("Removing existing data file: " +:+ filename);;
     os_remove filename
   else ret tt);;
  let json_filename := path_join (data_path args) "dataset.json" in
  experiment_data ←
    match open_json env json_filename with
    | ReadOk m => ret (Some m)
    | ReadIOError =>
        (* except IOError: the handler prints and falls through *)
        print ("File " +:+ json_filename +:+ " doesn't exist. It should be "
               +:+ "part of the Decathlon directory");;
        ret None
    | ReadDecodeError => raise (ValueError "JSONDecodeError")
    end;
  json ← local_var "experiment_data" experiment_data;
  print ("Dataset name =  " +:+ Json.name json);;
  print (Json.description json);;
  print ("Dataset release:  " +:+ Json.release json);;
  print ("Dataset reference:  " +:+ Json.reference json);;
  print ("Dataset license:  " +:+ Json.licence json);;
  print "==============================";;
  print "==============================";;
  let numFiles := Json.numTraining json in
  convert_raw_data_to_hdf5
    (trainList (random_sample env) numFiles (split args))
    (validateList (random_sample env) numFiles (split args))
    (Json.training json) filename (data_path args) json.

End Pipeline.

(** ** Vocabulary of the statements *)

Section Vocabulary.
Context {F : Type} `{NumpyFloat F}.

(** The rows a volume contributes to a dataset whose rows have shape
    [rs]. *)
Definition stored_rows (rs : list nat) (r : result (ndarray F))
    : list (ndarray F) :=
  match r with
  | Ok v => rows_of (broadcast_to (hd 0%nat (shape v) :: rs) v)
  | Raise _ => []
  end.

(** The dataset [dset] holds, in this order, the rows of the volumes read
    at [idxs]. *)
Definition dataset_holds (w : @world F) (dset : string)
    (read : nat -> result (ndarray F)) (idxs : list nat) : Prop :=
  exists rs at_,
    hdf_file w !! dset =
    Some {| data := NumData rs (flat_map (fun idx => stored_rows rs (read idx)) idxs);
            attrs := at_ |}.

(** The file has no entry [dset]. *)
Definition absent (w : @world F) (dset : string) : Prop :=
  hdf_file w !! dset = None.

(** As far as the dataset [dset] has been written, it holds the rows of
    the volumes read at the leading indices of [idxs], in the order of
    [idxs]: it is not there yet, or it holds the rows of the first [k]
    indices, followed by the zero rows of a resize whose write was refused
    (after which the run has ended). *)
Definition appended_in_order (w : @world F) (dset : string)
    (read : nat -> result (ndarray F)) (idxs : list nat) : Prop :=
  absent w dset \/
  exists k m rs at_,
    hdf_file w !! dset =
    Some {| data := NumData rs
                      (flat_map (fun idx => stored_rows rs (read idx)) (take k idxs)
                       ++ replicate m (zeros rs));
            attrs := at_ |}.

(** From a world where [P] holds, the statement [c] ends, whatever its
    outcome, in a world where [Q] holds. *)
Definition leads {A} (P : @world F -> Prop) (c : M A) (Q : @world F -> Prop)
    : Prop :=
  forall w, P w -> Q (c w).1.

(** The dataset [dset] starts with the rows [rows]. *)
Definition has_rows (w : @world F) (dset : string) (rs : list nat)
    (rows : list (ndarray F)) : Prop :=
  exists more at_,
    hdf_file w !! dset =
    Some {| data := NumData rs (rows ++ more); attrs := at_ |}.

(** Every entry of the file outside [keys] is what it was. *)
Definition untouched (keys : list string) (w w' : @world F) : Prop :=
  forall k, k ∉ keys -> hdf_file w' !! k = hdf_file w !! k.

(** Whatever its outcome, the statement [c] takes a world to a world
    related to it by [R]. *)
Definition preserves {A} (R : relation (@world F)) (c : M A) : Prop :=
  forall w, R w (c w).1.

(** One statement of the part of the run that writes the four datasets. *)
Inductive later_step : relation (@world F) :=
| step_append dset first img w :
    later_step w (append_volume dset first img w).1
| step_attr name key value w :
    later_step w (set_attr name key value w).1
| step_print s w :
    later_step w (print s w).1.

(** A metadata entry as [create_dataset] leaves it: [n] empty strings. *)
Definition blank_entry (n : nat) : @dataset F :=
  {| data := StrData (replicate n ""); attrs := ∅ |}.

Definition metadata_entries : gmap string (@dataset F) :=
  <["release" := blank_entry 50]>
    (<["reference" := blank_entry 100]>
       (<["description" := blank_entry 200]>
          (<["name" := blank_entry 100]>
             (<["license" := blank_entry 100]> ∅)))).

(** The names of the four growable datasets. *)
Definition growable : list string :=
  ["imgs_train"; "imgs_test"; "msks_train"; "msks_test"].

(** The directory and the path of the container (lines 245 to 255). *)
Definition output_dir (args : Args) : string :=
  path_join (save_path args)
            (pretty (resize args) +:+ "x" +:+ pretty (resize args) +:+ "/").

Definition output_path (args : Args) : string :=
  path_join (output_dir args) (output_filename args).

(** The path of the manifest (line 269). *)
Definition manifest_path (args : Args) : string :=
  path_join (data_path args) "dataset.json".

(** Only the content of the HDF5 file differs between the two worlds. *)
Definition same_shell (w w' : @world F) : Prop :=
  console w' = console w /\ removed w' = removed w /\ h5_path w' = h5_path w.

(** No file removed and none opened between the two worlds. *)
Definition same_files (w w' : @world F) : Prop :=
  removed w' = removed w /\ h5_path w' = h5_path w.

(** Every row of every numeric dataset has the row shape of its dataset. *)
Definition well_shaped (w : @world F) : Prop :=
  forall name d rs rows,
    hdf_file w !! name = Some d -> data d = NumData rs rows ->
    Forall (fun r => shape r = rs) rows.

Definition keeps_shape (w w' : @world F) : Prop :=
  well_shaped w -> well_shaped w'.

(** The world in which the conversion starts (lines 241 to 286), when the
    directory is there and the manifest [json] was read. *)
Definition before_convert (env : @environment F) (args : Args)
    (json : Json.manifest) (w : @world F) : @world F :=
  let w := (print ("Converting Decathlon raw Nifti data files to single "
                   +:+ "training and validation HDF5 data file.") w).1 in
  let w := (print_repr args w).1 in
  let w :=
    if path_exists env (output_path args) then
      (os_remove (output_path args)
         (print ("Removing existing data file: " +:+ output_path args) w).1).1
    else w in
  let w := (print ("Dataset name =  " +:+ Json.name json) w).1 in
  let w := (print (Json.description json) w).1 in
  let w := (print ("Dataset release:  " +:+ Json.release json) w).1 in
  let w := (print ("Dataset reference:  " +:+ Json.reference json) w).1 in
  let w := (print ("Dataset license:  " +:+ Json.licence json) w).1 in
  let w := (print "==============================" w).1 in
  (print "==============================" w).1.

(** The world after the two opening prints (lines 241 to 243), and after
    the removal of an existing output file (lines 257 to 259). *)
Definition announced (args : Args) (w : @world F) : @world F :=
  (print_repr args
     (print ("Converting Decathlon raw Nifti data files to single "
             +:+ "training and validation HDF5 data file.") w).1).1.

Definition cleared (env : @environment F) (args : Args) (w : @world F)
    : @world F :=
  if path_exists env (output_path args) then
    (os_remove (output_path args)
       (print ("Removing existing data file: " +:+ output_path args)
              (announced args w)).1).1
  else announced args w.


(** The names of the five metadata entries. *)
Definition metadata_names : list string :=
  ["license"; "name"; "description"; "reference"; "release"].

End Vocabulary.

(** ** A concrete machine

    IEEE doubles for the voxels, with the reductions computed by a
    left-to-right sum, and a task of three small samples. *)

Definition float_of_Z (z : Z) : PrimFloat.float :=
  match z with
  | Z0 => PrimFloat.zero
  | Zpos _ => PrimFloat.of_uint63 (Uint63.of_Z z)
  | Zneg p => PrimFloat.opp (PrimFloat.of_uint63 (Uint63.of_Z (Zpos p)))
  end.

Definition float_mean (l : list PrimFloat.float) : PrimFloat.float :=
  PrimFloat.div (foldl PrimFloat.add PrimFloat.zero l)
                (float_of_Z (Z.of_nat (length l))).

Definition float_std (l : list PrimFloat.float) : PrimFloat.float :=
  let m := float_mean l in
  PrimFloat.sqrt
    (float_mean ((fun x => PrimFloat.mul (PrimFloat.sub x m) (PrimFloat.sub x m))
                   <$> l)).

(** The cast of a double to an integer: a finite value is truncated
    towards zero.  What the cast makes of a NaN or of an infinity depends on
    the platform and on the integer type; it is zero here, and no statement
    below casts one. *)
Definition float_to_Z (x : PrimFloat.float) : Z :=
  match FloatOps.Prim2SF x with
  | SpecFloat.S754_finite s m e =>
      let v := Z.shiftl (Zpos m) e in if s then - v else v
  | _ => 0
  end.

#[export] Instance float64 : NumpyFloat PrimFloat.float := {|
  fsub := PrimFloat.sub;
  fdiv := PrimFloat.div;
  np_mean := fun _ => float_mean;
  np_std := fun _ => float_std;
  of_int := float_of_Z;
  to_int := float_to_Z
|}.

Definition weight (idx : list nat) : Z :=
  Z.of_nat (foldr (fun i acc => (i + 5 * acc)%nat) 0%nat idx).

Definition demo_image (k : Z) : ndarray PrimFloat.float :=
  {| shape := [4; 5; 3; 2]%nat;
     get := fun idx => float_of_Z (k * weight idx + 1) |}.

Definition demo_label (k : Z) : ndarray Z :=
  {| shape := [4; 5; 3]%nat; get := fun idx => (k + weight idx) mod 4 |}.

Definition demo_manifest : Json.manifest :=
  {| Json.name := "BRATS";
     Json.description := "Gliomas segmentation tumour and oedema in on brain images";
     Json.licence := "CC-BY-SA 4.0";
     Json.reference := "https://www.med.upenn.edu/sbia/brats2017.html";
     Json.release := "2.0 04/05/2018";
     Json.modalities := Json.Pairs [("0", "FLAIR"); ("1", "T1w")];
     Json.numTraining := 3;
     Json.training :=
       [ {| Json.image := "./imagesTr/BRATS_001.nii.gz";
            Json.label := "./labelsTr/BRATS_001.nii.gz" |};
         {| Json.image := "./imagesTr/BRATS_002.nii.gz";
            Json.label := "./labelsTr/BRATS_002.nii.gz" |};
         {| Json.image := "./imagesTr/BRATS_003.nii.gz";
            Json.label := "./labelsTr/BRATS_003.nii.gz" |} ] |}.

Definition demo_files {A} (dir : string) (vol : Z -> A) (path : string)
    : option A :=
  if String.eqb path (dir +:+ "BRATS_001.nii.gz") then Some (vol 1)
  else if String.eqb path (dir +:+ "BRATS_002.nii.gz") then Some (vol 2)
  else if String.eqb path (dir +:+ "BRATS_003.nii.gz") then Some (vol 3)
  else None.

(** The draws 0.25, 0.9, 0.25, 0.9, ... *)
Definition demo_random (i : nat) : Q :=
  if Nat.even i then 1 # 4 else 9 # 10.

Definition demo_env : environment :=
  {| makedirs_ok := fun _ => true;
     isdir := fun _ => true;
     path_exists := fun _ => false;
     open_json := fun path =>
       if String.eqb path "data/dataset.json" then ReadOk demo_manifest
       else ReadIOError;
     load_image := demo_files "data/./imagesTr/" (fun k => FloatImage (demo_image k));
     load_label := demo_files "data/./labelsTr/" demo_label;
     random_sample := demo_random |}.

(** The same machine without its manifest. *)
Definition bare_env : environment :=
  {| makedirs_ok := fun _ => true;
     isdir := fun _ => true;
     path_exists := fun _ => false;
     open_json := fun _ => ReadIOError;
     load_image := demo_files "data/./imagesTr/" (fun k => FloatImage (demo_image k));
     load_label := demo_files "data/./labelsTr/" demo_label;
     random_sample := demo_random |}.

Definition demo_args (split : Q) : Args :=
  {| data_path := "data/";
     save_path := "out/";
     output_filename := "decathlon_brats.h5";
     resize := 2;
     split := Finite split |}.

(** The same machine where the output directory can neither be made nor
    is there. *)
Definition readonly_env : environment :=
  {| makedirs_ok := fun _ => false;
     isdir := fun _ => false;
     path_exists := fun _ => false;
     open_json := open_json demo_env;
     load_image := load_image demo_env;
     load_label := load_label demo_env;
     random_sample := demo_random |}.

(** The same machine with an output file of an earlier run, and a manifest
    that is not JSON. *)
Definition garbled_env : environment :=
  {| makedirs_ok := fun _ => false;
     isdir := fun _ => true;
     path_exists := fun _ => true;
     open_json := fun _ => ReadDecodeError;
     load_image := load_image demo_env;
     load_label := load_label demo_env;
     random_sample := demo_random |}.

(** The defaults of the parser, with an absolute [--output_filename]. *)
Definition elsewhere_args : Args :=
  {| data_path := data_path default_args;
     save_path := save_path default_args;
     output_filename := "/tmp/brats.h5";
     resize := resize default_args;
     split := split default_args |}.

(** A volume as the loops hand it to the writer, and the file after the
    first write of such a volume. *)
Definition demo_slab (k : Z) : ndarray PrimFloat.float :=
  {| shape := [2; 2; 2; 2]%nat; get := fun idx => float_of_Z (k * weight idx) |}.

Definition demo_first_write : @world PrimFloat.float :=
  (append_volume "imgs_train" true (demo_slab 1) initial_world).1.

(** A volume whose second axis fits no row of that file. *)
Definition demo_misfit : ndarray PrimFloat.float :=
  {| shape := [2; 3; 2; 2]%nat; get := fun idx => float_of_Z (weight idx) |}.

(** The same task with its modalities as the Decathlon manifests have
    them, a mapping. *)
Definition decathlon_manifest : Json.manifest :=
  {| Json.name := Json.name demo_manifest;
     Json.description := Json.description demo_manifest;
     Json.licence := Json.licence demo_manifest;
     Json.reference := Json.reference demo_manifest;
     Json.release := Json.release demo_manifest;
     Json.modalities := Json.Mapping [("0", "FLAIR"); ("1", "T1w")];
     Json.numTraining := Json.numTraining demo_manifest;
     Json.training := Json.training demo_manifest |}.

Definition decathlon_env : environment :=
  {| makedirs_ok := makedirs_ok demo_env;
     isdir := isdir demo_env;
     path_exists := path_exists demo_env;
     open_json := fun path =>
       if String.eqb path "data/dataset.json" then ReadOk decathlon_manifest
       else ReadIOError;
     load_image := load_image demo_env;
     load_label := load_label demo_env;
     random_sample := demo_random |}.

(** An image file of integer voxels: one channel holding 0, 1, 2, 3 along
    its third axis. *)
Definition ramp_image : @image PrimFloat.float :=
  IntImage {| shape := [1; 1; 4; 1]%nat;
              get := fun idx => Z.of_nat (default 0%nat (idx !! 2%nat)) |}.



(** An image file of doubles: one channel holding 2^1023 and its
    opposite. *)
Definition huge : PrimFloat.float :=
  FloatOps.SF2Prim (SpecFloat.S754_finite false 4503599627370496 971).

Definition huge_image : @image PrimFloat.float :=
  FloatImage {| shape := [1; 1; 2; 1]%nat;
                get := fun idx =>
                  match idx !! 2%nat with
                  | Some 0%nat => huge
                  | _ => PrimFloat.opp huge
                  end |}.

(** A label volume with a negative label. *)
Definition signed_label : ndarray Z :=
  {| shape := [1; 1; 2]%nat;
     get := fun idx => 4 * Z.of_nat (default 0%nat (idx !! 2%nat)) - 3 |}.

(** * Proofs *)

(** ** Properties of the crop *)

Ltac split_ltb :=
  repeat match goal with
         | |- context [?a <? ?b] => destruct (Z.ltb_spec a b)
         end.

Lemma crop_start_nonneg (size crop : Z) : 0 <= crop_start size crop.
Proof. unfold crop_start. lia. Qed.

(** The number of elements kept along an axis of length [n]. *)
Lemma slice_range_crop_len (n : nat) (s : Z) :
  Z.of_nat (snd (slice_range n (crop_start (Z.of_nat n) s)
                               (crop_end (Z.of_nat n) s)))
  = Z.max 0 (Z.min s (Z.of_nat n)).
Proof.
  unfold slice_range, adjust_index, crop_end, crop_start. cbn [fst snd].
  split_ltb; Z.div_mod_to_equations; lia.
Qed.

(** The number of elements trimmed on the left. *)
Lemma slice_range_crop_off (n : nat) (s : Z) :
  0 <= s ->
  Z.of_nat (fst (slice_range n (crop_start (Z.of_nat n) s)
                               (crop_end (Z.of_nat n) s)))
  = crop_start (Z.of_nat n) s.
Proof.
  intros Hs. unfold slice_range, adjust_index. cbn [fst snd].
  pose proof (crop_start_nonneg (Z.of_nat n) s) as H0.
  assert (Hn : crop_start (Z.of_nat n) s <= Z.of_nat n)
    by (unfold crop_start; Z.div_mod_to_equations; lia).
  split_ltb; lia.
Qed.

Lemma slice_range_crop (n : nat) (s : Z) :
  0 <= s ->
  axis_cropped n s
    (fst (slice_range n (crop_start (Z.of_nat n) s) (crop_end (Z.of_nat n) s)))
    (snd (slice_range n (crop_start (Z.of_nat n) s) (crop_end (Z.of_nat n) s))).
Proof.
  intros Hs. unfold axis_cropped.
  pose proof (slice_range_crop_len n s) as Hl.
  pose proof (slice_range_crop_off n s Hs) as Ho.
  destruct (slice_range n _ _) as [lo n']. cbn [fst snd] in *.
  unfold crop_start in Ho.
  split; intros; split; Z.div_mod_to_equations; lia.
Qed.

(** Cropping an axis that is already the result of a crop keeps it whole. *)
Lemma slice_range_crop_again (n : nat) (s : Z) :
  let n' := snd (slice_range n (crop_start (Z.of_nat n) s)
                                (crop_end (Z.of_nat n) s)) in
  let r := slice_range n' (crop_start (Z.of_nat n') s)
                          (crop_end (Z.of_nat n') s) in
  snd r = n' /\ (n' <> 0%nat -> fst r = 0%nat).
Proof.
  intros n' r.
  pose proof (slice_range_crop_len n s) as Hl. fold n' in Hl.
  pose proof (slice_range_crop_len n' s) as Hl'. fold r in Hl'.
  split; [lia|]. intros Hne.
  assert (Hs : 0 <= s) by lia.
  pose proof (slice_range_crop_off n' s Hs) as Ho. fold r in Ho.
  unfold crop_start in Ho. Z.div_mod_to_equations. lia.
Qed.

Lemma in_bounds_cons3 (n1 n2 n3 : nat) (rest idx : list nat) :
  in_bounds (n1 :: n2 :: n3 :: rest) idx ->
  exists i j k r,
    idx = i :: j :: k :: r /\
    (i < n1)%nat /\ (j < n2)%nat /\ (k < n3)%nat /\ in_bounds rest r.
Proof.
  unfold in_bounds. intros Hb.
  inversion Hb as [|i ? idx1 ? Hi Hb1]; subst.
  inversion Hb1 as [|j ? idx2 ? Hj Hb2]; subst.
  inversion Hb2 as [|k ? idx3 ? Hk Hb3]; subst.
  eauto 10.
Qed.

Lemma slice_xyz_unfold {A} (img : ndarray A) (x y z : nat) (rest : list nat)
    (startx endx starty endy startz endz : Z) :
  shape img = x :: y :: z :: rest ->
  slice_xyz img startx endx starty endy startz endz =
  {| shape := snd (slice_range x startx endx) :: snd (slice_range y starty endy)
              :: snd (slice_range z startz endz) :: rest;
     get := fun idx =>
       match idx with
       | i :: j :: k :: r =>
           get img ((fst (slice_range x startx endx) + i)
                    :: (fst (slice_range y starty endy) + j)
                    :: (fst (slice_range z startz endz) + k) :: r)%nat
       | _ => get img idx
       end |}.
Proof.
  intros Hsh. unfold slice_xyz. rewrite Hsh.
  destruct (slice_range x _ _), (slice_range y _ _), (slice_range z _ _).
  reflexivity.
Qed.

Lemma crop_center_unfold {A} (img : ndarray A) (x y z : nat) (rest : list nat)
    (cropx cropy cropz : Z) :
  shape img = x :: y :: z :: rest -> (length rest <= 1)%nat ->
  crop_center img cropx cropy cropz =
  Ok (slice_xyz img (crop_start (Z.of_nat x) cropx) (crop_end (Z.of_nat x) cropx)
                    (crop_start (Z.of_nat y) cropy) (crop_end (Z.of_nat y) cropy)
                    (crop_start (Z.of_nat z) cropz) (crop_end (Z.of_nat z) cropz)).
Proof.
  intros Hsh Hr. unfold crop_center. rewrite Hsh.
  destruct rest as [|c [|? ?]]; cbn in Hr; try lia; reflexivity.
Qed.

Lemma crop_center_Ok_shape {A} (img out : ndarray A) (cropx cropy cropz : Z) :
  crop_center img cropx cropy cropz = Ok out ->
  exists x y z rest,
    shape img = x :: y :: z :: rest /\ (length rest <= 1)%nat.
Proof.
  unfold crop_center.
  destruct (shape img) as [|x [|y [|z [|c [|? ?]]]]]; try discriminate;
    intros _; eexists _, _, _, _; (split; [reflexivity | cbn; lia]).
Qed.

(** C4: for every volume (three spatial axes, with or without a channel
    axis) and every crop size, along each spatial axis of length at least
    the crop size the crop keeps exactly that many elements and trims
    amounts on the left and on the right that differ by at most one; along
    each spatial axis shorter than the crop size it keeps the whole axis;
    the channel axis is passed through untouched. *)
Theorem crop_center_axes {A} (img : ndarray A) (x y z : nat) (rest : list nat)
    (cropx cropy cropz : nat) :
  shape img = x :: y :: z :: rest -> (length rest <= 1)%nat ->
  exists (out : ndarray A) (lx ly lz nx ny nz : nat),
    crop_center img (Z.of_nat cropx) (Z.of_nat cropy) (Z.of_nat cropz) = Ok out /\
    shape out = nx :: ny :: nz :: rest /\
    (forall i j k r,
        get out (i :: j :: k :: r) =
        get img ((lx + i) :: (ly + j) :: (lz + k) :: r)%nat) /\
    axis_cropped x (Z.of_nat cropx) lx nx /\
    axis_cropped y (Z.of_nat cropy) ly ny /\
    axis_cropped z (Z.of_nat cropz) lz nz.
Proof.
  intros Hsh Hr.
  rewrite (crop_center_unfold img x y z rest) by assumption.
  rewrite (slice_xyz_unfold img x y z rest) by assumption.
  eexists _, _, _, _, _, _, _.
  split; [reflexivity|]. split; [reflexivity|]. split; [reflexivity|].
  split; [|split]; apply slice_range_crop; lia.
Qed.

(** C9: the centre crop is idempotent: cropping the result again with the
    same sizes succeeds and yields the same array. *)
Theorem crop_center_idempotent {A} (img out : ndarray A) (cropx cropy cropz : Z) :
  crop_center img cropx cropy cropz = Ok out ->
  exists out',
    crop_center out cropx cropy cropz = Ok out' /\ array_eq out' out.
Proof.
  intros Hc.
  destruct (crop_center_Ok_shape _ _ _ _ _ Hc) as (x & y & z & rest & Hsh & Hr).
  rewrite (crop_center_unfold img x y z rest) in Hc by assumption.
  rewrite (slice_xyz_unfold img x y z rest) in Hc by assumption.
  injection Hc as <-.
  pose proof (slice_range_crop_again x cropx) as [Hnx Hox].
  pose proof (slice_range_crop_again y cropy) as [Hny Hoy].
  pose proof (slice_range_crop_again z cropz) as [Hnz Hoz].
  set (rx := slice_range x _ _) in *.
  set (ry := slice_range y _ _) in *.
  set (rz := slice_range z _ _) in *.
  match goal with |- context [crop_center ?o] => set (out := o) end.
  assert (Hout : shape out = rx.2 :: ry.2 :: rz.2 :: rest) by reflexivity.
  rewrite (crop_center_unfold out _ _ _ _ _ _ _ Hout Hr).
  rewrite (slice_xyz_unfold out _ _ _ _ _ _ _ _ _ _ Hout).
  eexists. split; [reflexivity|].
  split; cbn [shape get].
  - congruence.
  - rewrite Hnx, Hny, Hnz. intros idx Hb.
    destruct (in_bounds_cons3 _ _ _ _ _ Hb) as (i & j & k & r & -> & Hi & Hj & Hk & _).
    rewrite Hox, Hoy, Hoz by lia. reflexivity.
Qed.

(** ** The splitter *)

Lemma boolean_index_fmap {A} (p : A -> bool) (l : list A) :
  boolean_index l (p <$> l) = List.filter p l.
Proof.
  induction l as [|x l IH]; cbn; [reflexivity|].
  rewrite IH. reflexivity.
Qed.

Lemma trainList_filter (random_sample : nat -> Q) (n : nat) (split : pyfloat) :
  trainList random_sample n split =
  List.filter (fun i => float_lt (Finite (random_sample i)) split) (seq 0 n).
Proof.
  unfold trainList, randomList, idxList.
  rewrite <- list_fmap_compose. apply boolean_index_fmap.
Qed.

Lemma validateList_filter (random_sample : nat -> Q) (n : nat) (split : pyfloat) :
  validateList random_sample n split =
  List.filter (fun i => float_ge (Finite (random_sample i)) split) (seq 0 n).
Proof.
  unfold validateList, randomList, idxList.
  rewrite <- list_fmap_compose. apply boolean_index_fmap.
Qed.

(** Against a finite ratio, [>=] is the negation of [<]. *)
Lemma float_ge_finite (x r : Q) :
  float_ge (Finite x) (Finite r) = negb (float_lt (Finite x) (Finite r)).
Proof. cbn. apply Z.leb_antisym. Qed.

Lemma filter_negb_permutation {A} (p : A -> bool) (l : list A) :
  List.filter p l ++ List.filter (fun x => negb (p x)) l ≡ₚ l.
Proof.
  induction l as [|x l IH]; cbn; [reflexivity|].
  destruct (p x); cbn.
  - by rewrite IH.
  - rewrite <- Permutation_middle. by rewrite IH.
Qed.

Lemma StronglySorted_lt_seq (a n : nat) : StronglySorted lt (seq a n).
Proof.
  revert a. induction n as [|n IH]; intros a; cbn; constructor.
  - apply IH.
  - apply List.Forall_forall. intros i Hi. apply in_seq in Hi. lia.
Qed.

Lemma StronglySorted_filter {A} (R : A -> A -> Prop) (p : A -> bool) (l : list A) :
  StronglySorted R l -> StronglySorted R (List.filter p l).
Proof.
  induction 1 as [|x l Hl IH Hx]; cbn; [constructor|].
  destruct (p x); [|assumption].
  constructor; [assumption|].
  apply List.Forall_forall. intros y Hy. apply filter_In in Hy as [Hy _].
  rewrite List.Forall_forall in Hx. auto.
Qed.

(** C1: for every number of samples and every finite split ratio (in
    particular every positive [numTraining] and every ratio of (0,1)), the
    union of the training and validation indices is exactly
    [[0, numTraining)], their intersection is empty, and together the two
    lists hold every index exactly once. *)
Theorem splitter_partition (random_sample : nat -> Q) (numTraining : nat) (r : Q) :
  let train := trainList random_sample numTraining (Finite r) in
  let validate := validateList random_sample numTraining (Finite r) in
  (list_to_set train ∪ list_to_set validate : gset nat) = set_seq 0 numTraining /\
  (list_to_set train ∩ list_to_set validate : gset nat) = ∅ /\
  train ++ validate ≡ₚ seq 0 numTraining.
Proof.
  intros train validate. subst train validate.
  rewrite trainList_filter, validateList_filter.
  rewrite (List.filter_ext _ _ (fun i => float_ge_finite (random_sample i) r)).
  split; [|split].
  - apply set_eq. intros i.
    rewrite elem_of_union, !elem_of_list_to_set, !list_elem_of_In, !filter_In.
    rewrite in_seq, elem_of_set_seq.
    destruct (float_lt (Finite (random_sample i)) (Finite r)); cbn;
      (split; [intros [[? ?]|[? ?]]; lia | intros ?]).
    + left. split; [lia | reflexivity].
    + right. split; [lia | reflexivity].
  - apply set_eq. intros i.
    rewrite elem_of_intersection, !elem_of_list_to_set, !list_elem_of_In, !filter_In.
    rewrite elem_of_empty.
    destruct (float_lt (Finite (random_sample i)) (Finite r)); cbn;
      (split; [intros [[_ ?] [_ ?]]; discriminate | intros []]).
  - apply (filter_negb_permutation
             (fun i => float_lt (Finite (random_sample i)) (Finite r))).
Qed.

(** ** Mask binarisation *)

(** C5: on a mask whose labels are class numbers (non-negative integers),
    after binarisation every voxel is exactly 0 or 1, a voxel is 1 exactly
    when its original value was at least 1, and values 0 and 1 are left as
    they were; the shape is unchanged. *)
Theorem combine_masks_binary (msk : ndarray Z) :
  (forall idx, in_bounds (shape msk) idx -> 0 <= get msk idx) ->
  shape (combine_masks msk) = shape msk /\
  forall idx, in_bounds (shape msk) idx ->
    (get (combine_masks msk) idx = 0 \/ get (combine_masks msk) idx = 1) /\
    (get (combine_masks msk) idx = 1 <-> 1 <= get msk idx) /\
    (get msk idx <= 1 -> get (combine_masks msk) idx = get msk idx).
Proof.
  intros Hpos. split; [reflexivity|].
  intros idx Hb. specialize (Hpos idx Hb).
  cbn. destruct (Z.ltb_spec 1 (get msk idx)); lia.
Qed.

(** ** Statements and their effect on the file *)

Section PipelineProofs.
Context {F : Type} `{NumpyFloat F}.
Implicit Types (w : @world F) (img : ndarray F).

#[local] Abbreviation keeps := (@preserves F _).

Lemma bind_run {A B} (m : @M F A) (k : A -> @M F B) w :
  bind m k w =
  match m w with
  | (w', Ok a) => k a w'
  | (w', Raise e) => (w', Raise e)
  end.
Proof. reflexivity. Qed.

Ltac run_binds := repeat (rewrite bind_run; cbn beta iota).

Lemma preserves_bind {A B} (R : relation (@world F)) `{!Transitive R}
    (m : M A) (k : A -> M B) :
  preserves R m -> (forall a, preserves R (k a)) -> preserves R (bind m k).
Proof.
  intros Hm Hk w. rewrite bind_run. specialize (Hm w).
  destruct (m w) as [w1 [a|e]]; cbn in *; [|assumption].
  etransitivity; [eassumption | apply Hk].
Qed.

Lemma preserves_pure {A} (R : relation (@world F)) `{!Reflexive R}
    (r : result A) :
  preserves R (lift r).
Proof. intros w. cbn. reflexivity. Qed.

Lemma preserves_ret {A} (R : relation (@world F)) `{!Reflexive R} (a : A) :
  preserves R (ret a).
Proof. intros w. cbn. reflexivity. Qed.

Lemma preserves_for_each {A S} (R : relation (@world F))
    `{!Reflexive R, !Transitive R} (body : S -> A -> M S) (l : list A) :
  (forall s x, preserves R (body s x)) ->
  forall s, preserves R (for_each body s l).
Proof.
  intros Hb. induction l as [|x l IH]; intros s; cbn [for_each].
  - apply preserves_ret; assumption.
  - apply preserves_bind; [assumption | apply Hb | apply IH].
Qed.

#[local] Instance untouched_refl keys : Reflexive (@untouched F keys).
Proof. intros w k _. reflexivity. Qed.

#[local] Instance untouched_trans keys : Transitive (@untouched F keys).
Proof. intros w1 w2 w3 H12 H23 k Hk. rewrite H23, H12 by assumption. reflexivity. Qed.

Lemma not_in_one (a b : string) : a <> b -> a ∉ [b].
Proof. intros Hne Hin. apply list_elem_of_singleton in Hin. contradiction. Qed.

Lemma untouched_one (name : string) (d : dataset) w :
  untouched [name] w (set_hdf (<[name := d]> (hdf_file w)) w).
Proof.
  intros k Hk. cbn. apply lookup_insert_ne.
  intros ->. apply Hk, list_elem_of_singleton. reflexivity.
Qed.

Lemma untouched_print s : keeps (untouched []) (print s).
Proof. intros w k _. reflexivity. Qed.

Lemma untouched_create_dataset_str name n :
  keeps (untouched [name]) (create_dataset_str name n).
Proof.
  intros w. unfold create_dataset_str.
  destruct (hdf_file w !! name); cbn [fst]; [reflexivity | apply untouched_one].
Qed.

Lemma untouched_create_dataset name sh maxshape :
  keeps (untouched [name]) (create_dataset name sh maxshape).
Proof.
  intros w. unfold create_dataset.
  destruct sh as [|n rs]; [reflexivity|].
  destruct (negb _); [reflexivity|].
  destruct (hdf_file w !! name); cbn [fst]; [reflexivity | apply untouched_one].
Qed.

Lemma untouched_dset_len name : keeps (untouched [name]) (dset_len name).
Proof.
  intros w. unfold dset_len.
  destruct (hdf_file w !! name) as [d|]; [destruct (data d)|]; reflexivity.
Qed.

Lemma untouched_dset_resize name size :
  keeps (untouched [name]) (dset_resize name size).
Proof.
  intros w. unfold dset_resize.
  destruct (hdf_file w !! name) as [d|]; [destruct (data d)|]; cbn [fst];
    first [reflexivity | apply untouched_one].
Qed.

Lemma untouched_dset_write name start stop img :
  keeps (untouched [name]) (dset_write name start stop img).
Proof.
  intros w. unfold dset_write.
  destruct (hdf_file w !! name) as [d|]; [destruct (data d)|]; cbn [fst];
    try reflexivity.
  destruct (slice_range _ _ _) as [a count].
  destruct (broadcastable _ _); cbn [fst];
    first [reflexivity | apply untouched_one].
Qed.

Lemma untouched_set_attr name key value :
  keeps (untouched [name]) (set_attr name key value).
Proof.
  intros w. unfold set_attr.
  destruct (hdf_file w !! name) as [d|]; [destruct value|]; cbn [fst];
    first [reflexivity | apply untouched_one].
Qed.

Lemma untouched_append_volume dset first img :
  keeps (untouched [dset]) (append_volume dset first img).
Proof.
  unfold append_volume, dset_write_all.
  repeat first
    [ apply preserves_bind; [apply _ | | intros ?]
    | apply preserves_pure; apply _
    | apply preserves_ret; apply _
    | apply untouched_create_dataset
    | apply untouched_dset_len
    | apply untouched_dset_resize
    | apply untouched_dset_write
    | match goal with |- preserves _ (if ?b then _ else _) => destruct b end ].
Qed.

(** *** What one write does *)

Lemma slice_range_tail (a n : nat) :
  slice_range (a + n) (Z.of_nat a) (Z.of_nat (a + n)) = (a, n).
Proof.
  unfold slice_range, adjust_index.
  destruct (Z.ltb_spec (Z.of_nat a) 0), (Z.ltb_spec (Z.of_nat (a + n)) 0);
    try lia.
  f_equal; lia.
Qed.

Lemma rows_of_length {A} (v : ndarray A) :
  length (rows_of v) = hd 0%nat (shape v).
Proof. unfold rows_of. rewrite length_fmap. apply length_seq. Qed.

Lemma broadcast_to_shape {A} (sel : list nat) (v : ndarray A) :
  shape (broadcast_to sel v) = sel.
Proof. unfold broadcast_to. destruct (decide _); [assumption | reflexivity]. Qed.

Lemma broadcastable_refl (sh : list nat) : broadcastable sh sh = true.
Proof.
  unfold broadcastable. rewrite Nat.eqb_refl. cbn.
  induction sh as [|n sh IH]; cbn; [reflexivity|].
  rewrite Nat.eqb_refl, orb_true_r. exact IH.
Qed.

Lemma dset_len_run dset rs rows at_ w :
  hdf_file w !! dset = Some {| data := NumData rs rows; attrs := at_ |} ->
  dset_len dset w = (w, Ok (length rows)).
Proof. intros Hd. unfold dset_len. rewrite Hd. reflexivity. Qed.

Lemma dset_resize_run dset rs rows at_ (n : nat) w :
  hdf_file w !! dset = Some {| data := NumData rs rows; attrs := at_ |} ->
  dset_resize dset (length rows + n) w =
  (set_hdf (<[dset := {| data := NumData rs (rows ++ replicate n (zeros rs));
                         attrs := at_ |}]> (hdf_file w)) w, Ok tt).
Proof.
  intros Hd. unfold dset_resize. rewrite Hd. cbn [data attrs].
  replace (length rows + n - length rows)%nat with n by lia.
  rewrite take_ge by (rewrite length_app, length_replicate; lia).
  reflexivity.
Qed.

Lemma dset_write_tail dset rs rows fill at_ img (n : nat) sh w :
  hdf_file w !! dset = Some {| data := NumData rs (rows ++ fill); attrs := at_ |} ->
  length fill = n ->
  shape img = n :: sh ->
  dset_write dset (Z.of_nat (length rows)) (Z.of_nat (length rows + n)) img w =
  if broadcastable (n :: sh) (n :: rs) then
    (set_hdf (<[dset := {| data := NumData rs
                                     (rows ++ rows_of (broadcast_to (n :: rs) img));
                           attrs := at_ |}]> (hdf_file w)) w, Ok tt)
  else (w, Raise (TypeError "Can't broadcast")).
Proof.
  intros Hd Hfill Hsh. unfold dset_write. rewrite Hd. cbn [data attrs].
  rewrite length_app, Hfill, slice_range_tail, Hsh.
  destruct (broadcastable _ _); [|reflexivity].
  rewrite take_app_length.
  rewrite drop_ge by (rewrite length_app; lia).
  rewrite app_nil_r. reflexivity.
Qed.

Lemma append_volume_false dset img (n : nat) sh rs rows at_ w :
  shape img = n :: sh ->
  hdf_file w !! dset = Some {| data := NumData rs rows; attrs := at_ |} ->
  append_volume dset false img w =
  if broadcastable (n :: sh) (n :: rs) then
    (set_hdf (<[dset := {| data := NumData rs
                                     (rows ++ rows_of (broadcast_to (n :: rs) img));
                           attrs := at_ |}]> (hdf_file w)) w, Ok false)
  else
    (set_hdf (<[dset := {| data := NumData rs (rows ++ replicate n (zeros rs));
                           attrs := at_ |}]> (hdf_file w)) w,
     Raise (TypeError "Can't broadcast")).
Proof.
  intros Hsh Hd. unfold append_volume, mbind, M_bind, lift.
  rewrite Hsh. cbn [getitem lookup list_lookup]. run_binds.
  rewrite (dset_len_run _ _ _ _ _ Hd). run_binds.
  rewrite (dset_resize_run _ _ _ _ _ _ Hd). run_binds.
  erewrite dset_write_tail;
    [ | cbn; apply lookup_insert_eq | apply length_replicate | exact Hsh ].
  destruct (broadcastable _ _); [|reflexivity].
  cbn. rewrite insert_insert_eq. reflexivity.
Qed.

Lemma append_volume_true_fresh dset img (n d1 d2 d3 : nat) w :
  shape img = [n; d1; d2; d3] ->
  hdf_file w !! dset = None ->
  append_volume dset true img w =
  (set_hdf (<[dset := {| data := NumData [d1; d2; d3] (rows_of img);
                         attrs := ∅ |}]> (hdf_file w)) w, Ok false).
Proof.
  intros Hsh Hd. unfold append_volume, mbind, M_bind, lift.
  rewrite Hsh. cbn [getitem lookup list_lookup]. run_binds.
  unfold create_dataset. cbn [length Nat.eqb negb]. rewrite Hd. run_binds.
  unfold dset_write_all, mbind, M_bind. run_binds.
  erewrite dset_len_run by (cbn; apply lookup_insert_eq).
  rewrite length_replicate.
  pose proof (dset_write_tail dset [d1; d2; d3] [] (replicate n (zeros [d1; d2; d3]))
                ∅ img n [d1; d2; d3]) as Hw.
  cbn [length Nat.add app] in Hw. rewrite Hw;
    [ | cbn; apply lookup_insert_eq | apply length_replicate | exact Hsh ].
  rewrite broadcastable_refl. cbn. rewrite insert_insert_eq.
  unfold broadcast_to. rewrite decide_True by assumption. reflexivity.
Qed.

Lemma append_volume_true_inv dset img w w' b :
  append_volume dset true img w = (w', Ok b) ->
  exists n d1 d2 d3,
    shape img = [n; d1; d2; d3] /\ hdf_file w !! dset = None.
Proof.
  unfold append_volume, mbind, M_bind, lift.
  destruct (shape img) as [|n [|d1 [|d2 [|d3 [|d4 sh]]]]] eqn:Hsh;
    cbn [getitem lookup list_lookup]; run_binds;
    try (intros Hc; discriminate Hc).
  unfold create_dataset. cbn [length Nat.eqb negb].
  destruct (hdf_file w !! dset); [discriminate|].
  intros _. eauto 10.
Qed.

Lemma append_volume_true_exists dset img d w :
  hdf_file w !! dset = Some d ->
  (append_volume dset true img w).1 = w.
Proof.
  intros Hd. unfold append_volume, mbind, M_bind, lift.
  repeat (run_binds;
          match goal with
          | |- context [getitem ?l ?i] => destruct (getitem l i); [|reflexivity]
          end).
  run_binds. unfold create_dataset.
  destruct (shape img); [reflexivity|].
  destruct (negb _); [reflexivity|].
  rewrite Hd. reflexivity.
Qed.

Lemma append_volume_scalar dset first img w :
  shape img = [] -> append_volume dset first img w = (w, Raise (IndexError "index out of range")).
Proof.
  intros Hsh. unfold append_volume, mbind, M_bind, lift.
  rewrite Hsh. reflexivity.
Qed.

(** *** The rest of the run keeps what is written *)

Lemma later_step_has_rows w w' dset rs rows :
  later_step w w' -> has_rows w dset rs rows -> has_rows w' dset rs rows.
Proof.
  intros Hstep (more & at_ & Hd).
  destruct Hstep as [d first img w | name key value w | s w].
  - destruct (decide (d = dset)) as [->|Hne].
    + destruct first.
      * rewrite (append_volume_true_exists _ _ _ _ Hd). by exists more, at_.
      * destruct (shape img) as [|n sh] eqn:Hsh.
        { rewrite append_volume_scalar by assumption. by exists more, at_. }
        rewrite (append_volume_false _ _ _ _ _ _ _ _ Hsh Hd).
        unfold has_rows.
        destruct (broadcastable _ _); cbn [fst set_hdf hdf_file];
          rewrite lookup_insert_eq, <- app_assoc; by eexists _, _.
    + exists more, at_. rewrite <- Hd.
      apply untouched_append_volume. by apply not_in_one.
  - destruct (decide (name = dset)) as [->|Hne].
    + unfold has_rows, set_attr. rewrite Hd.
      destruct value; cbn [fst set_hdf hdf_file data];
        [by eexists _, _|].
      rewrite lookup_insert_eq. by eexists _, _.
    + exists more, at_. rewrite <- Hd.
      apply untouched_set_attr. by apply not_in_one.
  - by exists more, at_.
Qed.

Lemma rtc_later_step_has_rows w w' dset rs rows :
  rtc later_step w w' -> has_rows w dset rs rows -> has_rows w' dset rs rows.
Proof.
  induction 1 as [|w1 w2 w3 Hstep _ IH]; [done|].
  intros Hr. apply IH. by eapply later_step_has_rows.
Qed.

(** C8: a write after the first one (the dataset [dset] exists and holds
    [rows]) extends the dataset by exactly the [n] rows of the incoming
    volume: afterwards it holds the old rows followed by [n] new ones.  A
    volume that fits the rows of the dataset is written: the write succeeds
    and the new rows are the volume's rows (broadcast along an axis of
    length one; the volume's rows themselves when it has the row shape of
    the dataset).  No other dataset is touched; and whatever statements of
    the write phase follow, the dataset still starts with the old rows
    followed by these new rows. *)
Theorem append_volume_extends dset img (n : nat) sh rs rows at_ w :
  shape img = n :: sh ->
  hdf_file w !! dset = Some {| data := NumData rs rows; attrs := at_ |} ->
  exists new,
    hdf_file (append_volume dset false img w).1 !! dset =
      Some {| data := NumData rs (rows ++ new); attrs := at_ |} /\
    length new = n /\
    (broadcastable (n :: sh) (n :: rs) = true ->
     (append_volume dset false img w).2 = Ok false /\
     new = rows_of (broadcast_to (n :: rs) img)) /\
    (sh = rs ->
     (append_volume dset false img w).2 = Ok false /\ new = rows_of img) /\
    ((append_volume dset false img w).2 = Ok false ->
     new = rows_of (broadcast_to (n :: rs) img)) /\
    untouched [dset] w (append_volume dset false img w).1 /\
    forall w'', rtc later_step (append_volume dset false img w).1 w'' ->
      has_rows w'' dset rs (rows ++ new).
Proof.
  intros Hsh Hd.
  pose proof (untouched_append_volume dset false img w) as Hframe.
  assert (Hrefl : sh = rs -> broadcastable (n :: sh) (n :: rs) = true)
    by (intros ->; apply broadcastable_refl).
  assert (Hsame : sh = rs -> broadcast_to (n :: rs) img = img)
    by (intros <-; unfold broadcast_to; by rewrite decide_True).
  rewrite (append_volume_false _ _ _ _ _ _ _ _ Hsh Hd) in *.
  destruct (broadcastable _ _); cbn [fst snd set_hdf hdf_file] in *;
    eexists; (split; [apply lookup_insert_eq|]).
  - split; [by rewrite rows_of_length, broadcast_to_shape|].
    split; [done|]. split; [intros Heq; by rewrite (Hsame Heq)|].
    split; [done|]. split; [done|].
    intros w'' Hrtc. eapply rtc_later_step_has_rows; [exact Hrtc|].
    exists [], at_. cbn. by rewrite lookup_insert_eq, app_nil_r.
  - split; [apply length_replicate|].
    split; [discriminate|].
    split; [intros Heq; by specialize (Hrefl Heq)|].
    split; [discriminate|]. split; [done|].
    intros w'' Hrtc. eapply rtc_later_step_has_rows; [exact Hrtc|].
    exists [], at_. cbn. by rewrite lookup_insert_eq, app_nil_r.
Qed.

(** *** The loops *)

Lemma save_volume_run (read : nat -> result (ndarray F)) dset first idx w :
  save_volume read dset first idx w =
  match read idx with
  | Ok img => append_volume dset first img w
  | Raise e => (w, Raise e)
  end.
Proof.
  unfold save_volume, mbind, M_bind, lift. rewrite bind_run.
  destruct (read idx); reflexivity.
Qed.

Lemma for_each_cons {A S} (body : S -> A -> @M F S) (s : S) (x : A) (l : list A) w :
  for_each body s (x :: l) w =
  match body s x w with
  | (w', Ok s') => for_each body s' l w'
  | (w', Raise e) => (w', Raise e)
  end.
Proof. reflexivity. Qed.

Lemma untouched_save_volume read dset first idx :
  keeps (untouched [dset]) (save_volume read dset first idx).
Proof.
  intros w. rewrite save_volume_run.
  destruct (read idx); [apply untouched_append_volume | reflexivity].
Qed.

Lemma untouched_save_loop read dset first idxs :
  keeps (untouched [dset]) (for_each (save_volume read dset) first idxs).
Proof.
  apply preserves_for_each; try apply _.
  intros s x. apply untouched_save_volume.
Qed.

(** A loop that finds its dataset appends to it the rows of every volume,
    in the order of the indices. *)
Lemma save_loop_append read dset idxs :
  forall w w' b rs rows at_,
    hdf_file w !! dset = Some {| data := NumData rs rows; attrs := at_ |} ->
    for_each (save_volume read dset) false idxs w = (w', Ok b) ->
    b = false /\
    hdf_file w' !! dset =
    Some {| data := NumData rs
                      (rows ++ flat_map (fun idx => stored_rows rs (read idx)) idxs);
            attrs := at_ |}.
Proof.
  induction idxs as [|idx idxs IH]; intros w w' b rs rows at_ Hd Hrun.
  - injection Hrun as <- <-. cbn. by rewrite app_nil_r.
  - rewrite for_each_cons, save_volume_run in Hrun.
    destruct (read idx) as [img|e] eqn:Hread; [|discriminate].
    destruct (shape img) as [|n sh] eqn:Hsh.
    { rewrite append_volume_scalar in Hrun by assumption. discriminate. }
    rewrite (append_volume_false _ _ _ _ _ _ _ _ Hsh Hd) in Hrun.
    destruct (broadcastable _ _); [|discriminate].
    eapply IH in Hrun; [|cbn; apply lookup_insert_eq].
    destruct Hrun as [-> Hd']. split; [done|].
    rewrite Hd'. cbn [flat_map stored_rows]. rewrite Hread. cbn [stored_rows].
    rewrite Hsh. cbn [hd]. by rewrite <- app_assoc.
Qed.

(** A loop that starts without its dataset either runs over no index and
    leaves the file as it is, or creates the dataset and fills it with the
    rows of every volume, in the order of the indices. *)
Lemma save_loop_create read dset idxs w w' b :
  hdf_file w !! dset = None ->
  for_each (save_volume read dset) true idxs w = (w', Ok b) ->
  (idxs = [] /\ w' = w /\ b = true) \/
  (idxs <> [] /\ b = false /\
   exists rs,
     hdf_file w' !! dset =
     Some {| data := NumData rs
                       (flat_map (fun idx => stored_rows rs (read idx)) idxs);
             attrs := ∅ |}).
Proof.
  intros Hd Hrun. destruct idxs as [|idx idxs].
  - left. injection Hrun as <- <-. done.
  - right. split; [done|].
    rewrite for_each_cons, save_volume_run in Hrun.
    destruct (read idx) as [img|e] eqn:Hread; [|discriminate].
    destruct (append_volume dset true img w) as [w1 [b1|e]] eqn:Hfirst;
      [|discriminate].
    destruct (append_volume_true_inv _ _ _ _ _ Hfirst) as (n & d1 & d2 & d3 & Hsh & _).
    rewrite (append_volume_true_fresh _ _ _ _ _ _ _ Hsh Hd) in Hfirst.
    injection Hfirst as <- <-.
    eapply save_loop_append in Hrun; [|cbn; apply lookup_insert_eq].
    destruct Hrun as [-> Hd']. split; [done|]. exists [d1; d2; d3].
    rewrite Hd'. cbn [flat_map stored_rows]. rewrite Hread. cbn [stored_rows].
    rewrite Hsh. cbn [hd]. unfold broadcast_to.
    by rewrite decide_True.
Qed.

(** *** [convert_raw_data_to_hdf5] *)

Lemma preserves_weaken {A} (R R' : relation (@world F)) (c : M A) :
  (forall w w', R w w' -> R' w w') -> keeps R c -> keeps R' c.
Proof. intros HR Hc w. apply HR, Hc. Qed.

Lemma untouched_weaken keys keys' w w' :
  (forall k, k ∈ keys -> k ∈ keys') -> untouched keys w w' -> untouched keys' w w'.
Proof. intros Hsub Hu k Hk. apply Hu. intros Hin. apply Hk, Hsub, Hin. Qed.

Lemma keeps_run {A} (R : relation (@world F)) (c : M A) w w' r :
  keeps R c -> c w = (w', r) -> R w w'.
Proof. intros Hc Hrun. specialize (Hc w). by rewrite Hrun in Hc. Qed.

Lemma untouched_lookup dset w w' k :
  untouched [dset] w w' -> k <> dset -> hdf_file w' !! k = hdf_file w !! k.
Proof. intros Hu Hne. apply Hu. by apply not_in_one. Qed.

Lemma save_information_run json w :
  hdf_file w = ∅ ->
  save_information json w = (set_hdf metadata_entries w, Ok tt).
Proof.
  intros Hempty. unfold save_information, mbind, M_bind, create_dataset_str.
  run_binds. rewrite Hempty, lookup_empty. run_binds. cbn [hdf_file set_hdf].
  repeat (rewrite lookup_insert_ne by discriminate).
  rewrite lookup_empty. run_binds. cbn [hdf_file set_hdf].
  repeat (rewrite lookup_insert_ne by discriminate).
  rewrite lookup_empty. run_binds. cbn [hdf_file set_hdf].
  repeat (rewrite lookup_insert_ne by discriminate).
  rewrite lookup_empty. run_binds. cbn [hdf_file set_hdf].
  repeat (rewrite lookup_insert_ne by discriminate).
  rewrite lookup_empty. reflexivity.
Qed.

Lemma convert_run env args trainIdx validateIdx fileIdx filename dataDir json w :
  convert_raw_data_to_hdf5 env args trainIdx validateIdx fileIdx filename
                           dataDir json w =
  save_datasets env args trainIdx validateIdx fileIdx filename dataDir json
    {| console := console w; removed := removed w;
       h5_path := Some filename; hdf_file := metadata_entries |}.
Proof.
  unfold convert_raw_data_to_hdf5, mbind, M_bind. rewrite bind_run.
  unfold h5py_File, modify. cbn beta iota. rewrite bind_run.
  rewrite save_information_run by reflexivity. reflexivity.
Qed.

Lemma untouched_save_datasets env args trainIdx validateIdx fileIdx filename
    dataDir json :
  keeps (untouched growable)
        (save_datasets env args trainIdx validateIdx fileIdx filename dataDir json).
Proof.
  unfold save_datasets, mbind, M_bind.
  repeat first
    [ apply preserves_bind; [apply _ | | intros ?]
    | eapply preserves_weaken; [|apply untouched_print];
      intros ? ?; apply untouched_weaken; intros ? []%elem_of_nil
    | eapply preserves_weaken; [|apply untouched_save_loop];
      intros ? ?; apply untouched_weaken;
      intros ? ->%list_elem_of_singleton; unfold growable;
      rewrite !elem_of_cons; tauto
    | eapply preserves_weaken; [|apply untouched_set_attr];
      intros ? ?; apply untouched_weaken;
      intros ? ->%list_elem_of_singleton; unfold growable;
      rewrite !elem_of_cons; tauto ].
Qed.

Lemma not_growable (k : string) :
  k <> "imgs_train" -> k <> "imgs_test" -> k <> "msks_train" ->
  k <> "msks_test" -> k ∉ growable.
Proof.
  intros ? ? ? ?. unfold growable. rewrite !elem_of_cons, elem_of_nil. tauto.
Qed.

(** C2, as the code has it: whatever the manifest says and however the run
    ends, each of the five metadata entries of the container holds empty
    strings only (100, 100, 200, 100 and 50 of them): the manifest's values
    are never written into them. *)
Theorem convert_leaves_metadata_blank env args trainIdx validateIdx fileIdx
    filename dataDir json w :
  let file :=
    hdf_file (convert_raw_data_to_hdf5 env args trainIdx validateIdx fileIdx
                                       filename dataDir json w).1 in
  file !! "license" = Some (blank_entry 100) /\
  file !! "name" = Some (blank_entry 100) /\
  file !! "description" = Some (blank_entry 200) /\
  file !! "reference" = Some (blank_entry 100) /\
  file !! "release" = Some (blank_entry 50).
Proof.
  intros file. subst file. rewrite convert_run.
  repeat split;
    (rewrite untouched_save_datasets by (apply not_growable; discriminate));
    cbn [hdf_file]; unfold metadata_entries;
    repeat (rewrite lookup_insert_ne by discriminate);
    apply lookup_insert_eq.
Qed.

(** *** A run that completes *)

Lemma bind_Ok_inv {A B} (m : @M F A) (k : A -> @M F B) w b :
  (bind m k w).2 = Ok b ->
  exists a w1, m w = (w1, Ok a) /\ bind m k w = k a w1.
Proof.
  rewrite bind_run. destruct (m w) as [w1 [a|e]]; [eauto | discriminate].
Qed.

Lemma print_run_hdf s w w' (r : result unit) :
  print s w = (w', r) -> hdf_file w' = hdf_file w.
Proof. intros [= <- _]. reflexivity. Qed.

Lemma set_attr_Ok name key value w w' u :
  set_attr name key value w = (w', Ok u) ->
  exists d items,
    value = Json.Pairs items /\
    hdf_file w !! name = Some d /\
    hdf_file w' =
    <[name := {| data := data d; attrs := <[key := items]> (attrs d) |}]>
      (hdf_file w).
Proof.
  unfold set_attr. destruct (hdf_file w !! name) as [d|]; [|discriminate].
  destruct value as [items|items]; [discriminate|].
  intros [= <-]. eauto.
Qed.

Lemma dataset_holds_ext w w' dset read idxs :
  hdf_file w' !! dset = hdf_file w !! dset ->
  dataset_holds w dset read idxs -> dataset_holds w' dset read idxs.
Proof. intros Heq (rs & at_ & Hd). exists rs, at_. by rewrite Heq. Qed.

Lemma dataset_holds_print s w w' (r : result unit) dset read idxs :
  print s w = (w', r) ->
  dataset_holds w dset read idxs -> dataset_holds w' dset read idxs.
Proof. intros Hp. apply dataset_holds_ext. by rewrite (print_run_hdf _ _ _ _ Hp). Qed.

Lemma dataset_holds_set_attr name key value w w' u dset read idxs :
  set_attr name key value w = (w', Ok u) ->
  dataset_holds w dset read idxs -> dataset_holds w' dset read idxs.
Proof.
  intros (d & items & _ & Hd & Hw')%set_attr_Ok (rs & at_ & Hh).
  unfold dataset_holds.
  rewrite Hw'. destruct (decide (name = dset)) as [->|Hne].
  - rewrite lookup_insert_eq. rewrite Hh in Hd. injection Hd as <-.
    cbn [data]. eauto.
  - rewrite lookup_insert_ne by assumption. eauto.
Qed.

Lemma dataset_holds_loop read' dset' first idxs' w w' (r : result bool)
    dset read idxs :
  for_each (save_volume read' dset') first idxs' w = (w', r) ->
  dset <> dset' ->
  dataset_holds w dset read idxs -> dataset_holds w' dset read idxs.
Proof.
  intros Hrun Hne. apply dataset_holds_ext.
  eapply untouched_lookup; [|exact Hne].
  eapply keeps_run; [apply untouched_save_loop | exact Hrun].
Qed.

Lemma absent_print s w w' (r : result unit) (k : string) :
  print s w = (w', r) -> hdf_file w !! k = None -> hdf_file w' !! k = None.
Proof. intros Hp. by rewrite (print_run_hdf _ _ _ _ Hp). Qed.

Lemma absent_set_attr name key value w w' u (k : string) :
  set_attr name key value w = (w', Ok u) -> k <> name ->
  hdf_file w !! k = None -> hdf_file w' !! k = None.
Proof.
  intros (d & items & _ & Hd & Hw')%set_attr_Ok Hne. rewrite Hw'.
  by rewrite lookup_insert_ne.
Qed.

Lemma absent_loop read' dset' first idxs' w w' (r : result bool) (k : string) :
  for_each (save_volume read' dset') first idxs' w = (w', r) ->
  k <> dset' ->
  hdf_file w !! k = None -> hdf_file w' !! k = None.
Proof.
  intros Hrun Hne <-. eapply untouched_lookup; [|exact Hne].
  eapply keeps_run; [apply untouched_save_loop | exact Hrun].
Qed.

(** Carry the absence of a dataset across the statement run in [E]. *)
Ltac push_absent E :=
  match type of E with
  | print _ ?w = _ =>
      repeat match goal with
             | Hk : hdf_file w !! _ = None |- _ =>
                 apply (absent_print _ _ _ _ _ E) in Hk
             end
  | set_attr _ _ _ ?w = _ =>
      repeat match goal with
             | Hk : hdf_file w !! _ = None |- _ =>
                 apply (absent_set_attr _ _ _ _ _ _ _ E) in Hk; [|discriminate]
             end
  | for_each _ _ _ ?w = _ =>
      repeat match goal with
             | Hk : hdf_file w !! _ = None |- _ =>
                 apply (absent_loop _ _ _ _ _ _ _ _ E) in Hk; [|discriminate]
             end
  end.

(** One of the four loops, run to its end on a file without its dataset. *)
Lemma phase_Ok read dset idxs w w' b :
  hdf_file w !! dset = None ->
  for_each (save_volume read dset) true idxs w = (w', Ok b) ->
  (idxs = [] /\ hdf_file w' !! dset = None) \/
  (idxs <> [] /\ dataset_holds w' dset read idxs).
Proof.
  intros Hd Hrun.
  destruct (save_loop_create _ _ _ _ _ _ Hd Hrun)
    as [(-> & -> & _) | (Hne & _ & rs & Hd')].
  - by left.
  - right. split; [done|]. by exists rs, ∅.
Qed.

(** A run of the loops that completes had both index lists non-empty, and
    leaves each dataset holding the rows of its samples in the order of its
    index list. *)
Lemma save_datasets_Ok env args trainIdx validateIdx fileIdx filename dataDir
    json w :
  (forall k, k ∈ growable -> hdf_file w !! k = None) ->
  (save_datasets env args trainIdx validateIdx fileIdx filename dataDir json w).2
    = Ok tt ->
  let w' :=
    (save_datasets env args trainIdx validateIdx fileIdx filename dataDir json w).1 in
  trainIdx <> [] /\ validateIdx <> [] /\
  dataset_holds w' "imgs_train" (read_image env args dataDir fileIdx) trainIdx /\
  dataset_holds w' "imgs_test" (read_image env args dataDir fileIdx) validateIdx /\
  dataset_holds w' "msks_train" (read_mask env args dataDir fileIdx) trainIdx /\
  dataset_holds w' "msks_test" (read_mask env args dataDir fileIdx) validateIdx.
Proof.
  intros Hfresh Hok w'. subst w'.
  assert (Ha : hdf_file w !! "imgs_train" = None)
    by (apply Hfresh; unfold growable; rewrite !elem_of_cons; tauto).
  assert (Hb : hdf_file w !! "imgs_test" = None)
    by (apply Hfresh; unfold growable; rewrite !elem_of_cons; tauto).
  assert (Hc : hdf_file w !! "msks_train" = None)
    by (apply Hfresh; unfold growable; rewrite !elem_of_cons; tauto).
  assert (Hd : hdf_file w !! "msks_test" = None)
    by (apply Hfresh; unfold growable; rewrite !elem_of_cons; tauto).
  clear Hfresh. unfold save_datasets, mbind, M_bind in *.
  (* Step 1 *)
  destruct (bind_Ok_inv _ _ _ _ Hok) as (? & w1 & E1 & Heq).
  rewrite Heq in Hok |- *. clear Heq.
  destruct (bind_Ok_inv _ _ _ _ Hok) as (? & w2 & E2 & Heq).
  rewrite Heq in Hok |- *. clear Heq.
  destruct (bind_Ok_inv _ _ _ _ Hok) as (? & w3 & E3 & Heq).
  rewrite Heq in Hok |- *. clear Heq.
  (* Step 2 *)
  destruct (bind_Ok_inv _ _ _ _ Hok) as (? & w4 & E4 & Heq).
  rewrite Heq in Hok |- *. clear Heq.
  destruct (bind_Ok_inv _ _ _ _ Hok) as (? & w5 & E5 & Heq).
  rewrite Heq in Hok |- *. clear Heq.
  destruct (bind_Ok_inv _ _ _ _ Hok) as (? & w6 & E6 & Heq).
  rewrite Heq in Hok |- *. clear Heq.
  (* Step 3 *)
  destruct (bind_Ok_inv _ _ _ _ Hok) as (? & w7 & E7 & Heq).
  rewrite Heq in Hok |- *. clear Heq.
  destruct (bind_Ok_inv _ _ _ _ Hok) as (? & w8 & E8 & Heq).
  rewrite Heq in Hok |- *. clear Heq.
  (* Step 4 *)
  destruct (bind_Ok_inv _ _ _ _ Hok) as (? & w9 & E9 & Heq).
  rewrite Heq in Hok |- *. clear Heq.
  destruct (bind_Ok_inv _ _ _ _ Hok) as (? & w10 & E10 & Heq).
  rewrite Heq in Hok |- *. clear Heq.
  destruct (bind_Ok_inv _ _ _ _ Hok) as (? & w11 & E11 & Heq).
  rewrite Heq in Hok |- *. clear Heq.
  destruct (print _ w11) as [w12 r12] eqn:E12. cbn [fst].
  (* the training images *)
  push_absent E1.
  destruct (phase_Ok _ _ _ _ _ _ Ha E2) as [[_ Hnone] | [Htrain Himgs_train]].
  { apply set_attr_Ok in E3 as (d & items & _ & Hsome & _). congruence. }
  push_absent E2. push_absent E3. push_absent E4.
  (* the validation images *)
  destruct (phase_Ok _ _ _ _ _ _ Hb E5) as [[_ Hnone] | [Hval Himgs_test]].
  { apply set_attr_Ok in E6 as (d & items & _ & Hsome & _). congruence. }
  push_absent E5. push_absent E6. push_absent E7.
  (* the training masks *)
  destruct (phase_Ok _ _ _ _ _ _ Hc E8) as [[-> _] | [_ Hmsks_train]];
    [done|].
  push_absent E8. push_absent E9.
  (* the validation masks *)
  destruct (phase_Ok _ _ _ _ _ _ Hd E10) as [[-> _] | [_ Hmsks_test]];
    [done|].
  split; [done|]. split; [done|].
  repeat split.
  - eapply dataset_holds_print; [exact E12|].
    eapply dataset_holds_print; [exact E11|].
    eapply dataset_holds_loop; [exact E10 | discriminate |].
    eapply dataset_holds_print; [exact E9|].
    eapply dataset_holds_loop; [exact E8 | discriminate |].
    eapply dataset_holds_print; [exact E7|].
    eapply dataset_holds_set_attr; [exact E6|].
    eapply dataset_holds_loop; [exact E5 | discriminate |].
    eapply dataset_holds_print; [exact E4|].
    eapply dataset_holds_set_attr; [exact E3|]. exact Himgs_train.
  - eapply dataset_holds_print; [exact E12|].
    eapply dataset_holds_print; [exact E11|].
    eapply dataset_holds_loop; [exact E10 | discriminate |].
    eapply dataset_holds_print; [exact E9|].
    eapply dataset_holds_loop; [exact E8 | discriminate |].
    eapply dataset_holds_print; [exact E7|].
    eapply dataset_holds_set_attr; [exact E6|]. exact Himgs_test.
  - eapply dataset_holds_print; [exact E12|].
    eapply dataset_holds_print; [exact E11|].
    eapply dataset_holds_loop; [exact E10 | discriminate |].
    eapply dataset_holds_print; [exact E9|]. exact Hmsks_train.
  - eapply dataset_holds_print; [exact E12|].
    eapply dataset_holds_print; [exact E11|]. exact Hmsks_test.
Qed.

(** *** The script's main part *)

Lemma metadata_entries_growable (k : string) :
  k ∈ growable -> (metadata_entries : gmap string (@dataset F)) !! k = None.
Proof.
  unfold growable, metadata_entries. rewrite !elem_of_cons, elem_of_nil.
  intros [->|[->|[->|[->|[]]]]];
    repeat (rewrite lookup_insert_ne by discriminate); apply lookup_empty.
Qed.

Ltac run_main :=
  repeat (rewrite bind_run;
          cbn beta iota delta [console removed h5_path hdf_file]).

(** Either the main part raises, or it found the manifest and is the
    conversion run on the two index lists. *)
Lemma main_cases env args w :
  (exists w' e, main env args w = (w', Raise e)) \/
  (exists json w0,
     open_json env (manifest_path args) = ReadOk json /\
     main env args w =
     convert_raw_data_to_hdf5 env args
       (trainList (random_sample env) (Json.numTraining json) (split args))
       (validateList (random_sample env) (Json.numTraining json) (split args))
       (Json.training json) (output_path args) (data_path args) json w0).
Proof.
  unfold output_path, output_dir, manifest_path.
  unfold main, local_var, mbind, M_bind, print, print_repr, os_remove, modify.
  unfold ret, raise. cbv zeta. run_main.
  destruct (makedirs_ok env _); [|destruct (isdir env _)]; run_main.
  all: try destruct (path_exists env _); run_main.
  all: try destruct (open_json env _) eqn:Hjson; run_main.
  all: lazymatch goal with
       | |- (exists w' e, (_, Raise _) = _) \/ _ =>
           left; eexists _, _; reflexivity
       | |- _ => right; eexists _, _; split; reflexivity
       end.
Qed.

Lemma filter_none {A} (p : A -> bool) (l : list A) :
  (forall x, p x = false) -> List.filter p l = [].
Proof.
  intros Hp. induction l as [|x l IH]; cbn; [reflexivity|].
  by rewrite Hp.
Qed.

Lemma validateList_split_one (rs : nat -> Q) (n : nat) :
  (forall i, (rs i < 1)%Q) -> validateList rs n (Finite 1) = [].
Proof.
  intros Hlt. rewrite validateList_filter. apply filter_none. intros i.
  specialize (Hlt i). unfold Qlt in Hlt. cbn in *. apply Z.leb_gt. lia.
Qed.

Lemma trainList_split_zero (rs : nat -> Q) (n : nat) :
  (forall i, (0 <= rs i)%Q) -> trainList rs n (Finite 0) = [].
Proof.
  intros Hle. rewrite trainList_filter. apply filter_none. intros i.
  specialize (Hle i). unfold Qle in Hle. cbn in *. apply Z.ltb_ge. lia.
Qed.

Lemma convert_Ok env args trainIdx validateIdx fileIdx filename dataDir json w :
  (convert_raw_data_to_hdf5 env args trainIdx validateIdx fileIdx filename
                            dataDir json w).2 = Ok tt ->
  let w' :=
    (convert_raw_data_to_hdf5 env args trainIdx validateIdx fileIdx filename
                              dataDir json w).1 in
  trainIdx <> [] /\ validateIdx <> [] /\
  dataset_holds w' "imgs_train" (read_image env args dataDir fileIdx) trainIdx /\
  dataset_holds w' "imgs_test" (read_image env args dataDir fileIdx) validateIdx /\
  dataset_holds w' "msks_train" (read_mask env args dataDir fileIdx) trainIdx /\
  dataset_holds w' "msks_test" (read_mask env args dataDir fileIdx) validateIdx.
Proof.
  rewrite convert_run. apply save_datasets_Ok.
  intros k Hk. cbn [hdf_file]. by apply metadata_entries_growable.
Qed.

(** C3, as the code has it: with draws in [[0, 1)], a split ratio of 1.0
    (no validation sample) or of 0.0 (no training sample) never lets the
    script complete: it ends with an exception. *)
Theorem main_fails_on_extreme_split env args w :
  (forall i, (0 <= random_sample env i)%Q /\ (random_sample env i < 1)%Q) ->
  split args = Finite 1 \/ split args = Finite 0 ->
  exists e, (main env args w).2 = Raise e.
Proof.
  intros Hdraw Hsplit.
  destruct (main_cases env args w) as [(w' & e & ->) | (json & w0 & _ & ->)];
    [by exists e|].
  match goal with |- exists e, ?r.2 = _ => destruct (r.2) as [[]|e] eqn:Hrun end;
    [|by exists e].
  apply convert_Ok in Hrun as (Htrain & Hval & _).
  destruct Hsplit as [Hs|Hs]; rewrite Hs in *.
  - rewrite validateList_split_one in Hval by (intros i; apply Hdraw). done.
  - rewrite trainList_split_zero in Htrain by (intros i; apply Hdraw). done.
Qed.

(** C7, as the code has it: when the manifest cannot be opened (and the
    output directory is there), the handler prints its diagnostic and falls
    through; the run then ends at the next statement with a [NameError] for
    [experiment_data], having opened no container. *)
Theorem main_without_manifest env args w :
  open_json env (manifest_path args) = ReadIOError ->
  makedirs_ok env (output_dir args) = true \/ isdir env (output_dir args) = true ->
  (main env args w).2 = Raise (NameError "experiment_data") /\
  last (console (main env args w).1) =
    Some (Line ("File " +:+ manifest_path args +:+ " doesn't exist. It should be "
                +:+ "part of the Decathlon directory")) /\
  h5_path (main env args w).1 = h5_path w /\
  hdf_file (main env args w).1 = hdf_file w.
Proof.
  unfold output_dir, manifest_path. intros Hjson Hdir.
  unfold main, local_var, mbind, M_bind, print, print_repr, os_remove, modify.
  unfold ret, raise. cbv zeta. run_main.
  destruct Hdir as [Hdir|Hdir];
    [rewrite Hdir | destruct (makedirs_ok env _); [|rewrite Hdir]]; run_main.
  all: destruct (path_exists env _); run_main; rewrite Hjson; run_main;
    cbn [fst snd console h5_path hdf_file]; rewrite last_snoc; done.
Qed.

(** *** Invariants of the writer *)

(** A relation that every h5py operation keeps is kept by one write, by a
    loop and by the rest. *)
Section Invariant.
Variable R : relation (@world F).
Context `{!Reflexive R, !Transitive R}.
Hypothesis R_create : forall name sh maxshape, keeps R (create_dataset name sh maxshape).
Hypothesis R_len : forall name, keeps R (dset_len name).
Hypothesis R_resize : forall name size, keeps R (dset_resize name size).
Hypothesis R_write : forall name start stop img, keeps R (dset_write name start stop img).

Lemma invariant_append_volume dset first img :
  keeps R (append_volume dset first img).
Proof.
  unfold append_volume, dset_write_all.
  repeat first
    [ apply preserves_bind; [apply _ | | intros ?]
    | apply preserves_pure; apply _
    | apply preserves_ret; apply _
    | apply R_create | apply R_len | apply R_resize | apply R_write
    | match goal with |- preserves _ (if ?b then _ else _) => destruct b end ].
Qed.

Lemma invariant_save_loop read dset first idxs :
  keeps R (for_each (save_volume read dset) first idxs).
Proof.
  apply preserves_for_each; try apply _.
  intros s x w. rewrite save_volume_run.
  destruct (read x); [apply invariant_append_volume | reflexivity].
Qed.

Hypothesis R_print : forall s, keeps R (print s).
Hypothesis R_attr : forall name key value, keeps R (set_attr name key value).

Lemma invariant_save_datasets env args trainIdx validateIdx fileIdx filename
    dataDir json :
  keeps R (save_datasets env args trainIdx validateIdx fileIdx filename dataDir json).
Proof.
  unfold save_datasets, mbind, M_bind.
  repeat first
    [ apply preserves_bind; [apply _ | | intros ?]
    | apply R_print | apply R_attr | apply invariant_save_loop ].
Qed.

End Invariant.

#[local] Instance same_shell_refl : Reflexive (@same_shell F).
Proof. by intros w. Qed.

#[local] Instance same_shell_trans : Transitive (@same_shell F).
Proof.
  intros w1 w2 w3 (? & ? & ?) (? & ? & ?). unfold same_shell. split_and!; congruence.
Qed.








(** *** The outcomes of the main part *)

Lemma bind_print {B} s (k : unit -> @M F B) w :
  bind (print s) k w = k tt (print s w).1.
Proof. reflexivity. Qed.

Lemma bind_print_repr {B} a (k : unit -> @M F B) w :
  bind (print_repr a) k w = k tt (print_repr a w).1.
Proof. reflexivity. Qed.

Lemma bind_os_remove {B} path (k : unit -> @M F B) w :
  bind (os_remove path) k w = k tt (os_remove path w).1.
Proof. reflexivity. Qed.

Lemma bind_ret {A B} (a : A) (k : A -> @M F B) w : bind (ret a) k w = k a w.
Proof. reflexivity. Qed.

Lemma bind_raise {A B} e (k : A -> @M F B) w :
  bind (raise e) k w = (w, Raise e).
Proof. reflexivity. Qed.

Lemma bind_assoc {A B C} (m : @M F A) (k1 : A -> @M F B) (k2 : B -> @M F C) w :
  bind (bind m k1) k2 w = bind m (fun a => bind (k1 a) k2) w.
Proof. rewrite !bind_run. by destruct (m w) as [w1 [a|e]]. Qed.

(** The main part, case by case: no directory; no manifest; a manifest
    that is not JSON; or the conversion. *)
Lemma main_outcome env args w :
  main env args w =
  if makedirs_ok env (output_dir args) || isdir env (output_dir args) then
    match open_json env (manifest_path args) with
    | ReadOk json =>
        convert_raw_data_to_hdf5 env args
          (trainList (random_sample env) (Json.numTraining json) (split args))
          (validateList (random_sample env) (Json.numTraining json) (split args))
          (Json.training json) (output_path args) (data_path args) json
          (before_convert env args json w)
    | ReadIOError =>
        ((print ("File " +:+ manifest_path args +:+ " doesn't exist. It should be "
                 +:+ "part of the Decathlon directory") (cleared env args w)).1,
         Raise (NameError "experiment_data"))
    | ReadDecodeError =>
        (cleared env args w, Raise (ValueError "JSONDecodeError"))
    end
  else (announced args w, Raise (OSError (output_dir args))).
Proof.
  unfold main, local_var, mbind, M_bind. cbv zeta.
  fold (output_dir args). fold (output_path args). fold (manifest_path args).
  rewrite bind_print, bind_print_repr. fold (announced args w).
  destruct (makedirs_ok env _); [|destruct (isdir env _)]; cbn [orb];
    rewrite ?bind_ret, ?bind_raise; [| |reflexivity].
  all: unfold before_convert, cleared; cbv zeta; fold (announced args w).
  all: destruct (path_exists env _);
    rewrite ?bind_assoc, ?bind_print, ?bind_os_remove, ?bind_ret.
  all: destruct (open_json env _);
    rewrite ?bind_assoc, ?bind_print, ?bind_ret, ?bind_raise; cbn iota;
    rewrite ?bind_ret, ?bind_raise, ?bind_print; reflexivity.
Qed.

Lemma console_announced args w :
  console (announced args w) =
  console w ++ [Line ("Converting Decathlon raw Nifti data files to single "
                      +:+ "training and validation HDF5 data file.");
                ReprOf args].
Proof. cbn. by rewrite <- app_assoc. Qed.

Lemma console_cleared env args w :
  console (cleared env args w) =
  console w ++ [Line ("Converting Decathlon raw Nifti data files to single "
                      +:+ "training and validation HDF5 data file.");
                ReprOf args]
            ++ (if path_exists env (output_path args)
                then [Line ("Removing existing data file: " +:+ output_path args)]
                else []).
Proof.
  unfold cleared. destruct (path_exists env _).
  - cbn [os_remove print modify fst console]. rewrite console_announced.
    by rewrite <- !app_assoc.
  - rewrite console_announced. by rewrite app_nil_r.
Qed.

Lemma files_cleared env args w :
  removed (cleared env args w) =
    removed w ++ (if path_exists env (output_path args)
                  then [output_path args] else []) /\
  h5_path (cleared env args w) = h5_path w /\
  hdf_file (cleared env args w) = hdf_file w.
Proof.
  unfold cleared. destruct (path_exists env _); cbn; by rewrite ?app_nil_r.
Qed.

(** When the output directory can neither be created nor is there, the
    script ends with [OSError] right after its two opening prints: nothing
    is removed and no container is opened. *)
Theorem main_without_directory env args w :
  makedirs_ok env (output_dir args) = false ->
  isdir env (output_dir args) = false ->
  (main env args w).2 = Raise (OSError (output_dir args)) /\
  console (main env args w).1 =
    console w ++ [Line ("Converting Decathlon raw Nifti data files to single "
                        +:+ "training and validation HDF5 data file.");
                  ReprOf args] /\
  removed (main env args w).1 = removed w /\
  h5_path (main env args w).1 = h5_path w /\
  hdf_file (main env args w).1 = hdf_file w.
Proof.
  intros Hmk Hdir. rewrite main_outcome, Hmk, Hdir. cbn [orb fst snd].
  rewrite console_announced. done.
Qed.

(** When [dataset.json] is there but is not JSON, the [ValueError] of
    [json.load] is not caught: the script ends with it, without the
    diagnostic of the [IOError] handler and without opening a container. *)
Theorem main_with_invalid_manifest env args w :
  open_json env (manifest_path args) = ReadDecodeError ->
  makedirs_ok env (output_dir args) = true \/ isdir env (output_dir args) = true ->
  (main env args w).2 = Raise (ValueError "JSONDecodeError") /\
  console (main env args w).1 =
    console w ++ [Line ("Converting Decathlon raw Nifti data files to single "
                        +:+ "training and validation HDF5 data file.");
                  ReprOf args]
              ++ (if path_exists env (output_path args)
                  then [Line ("Removing existing data file: " +:+ output_path args)]
                  else []) /\
  h5_path (main env args w).1 = h5_path w /\
  hdf_file (main env args w).1 = hdf_file w.
Proof.
  intros Hjson Hdir. rewrite main_outcome, Hjson.
  assert (makedirs_ok env (output_dir args) || isdir env (output_dir args) = true)
    as -> by (destruct Hdir as [-> | ->]; [done | apply orb_true_r]).
  cbn [fst snd]. rewrite console_cleared.
  destruct (files_cleared env args w) as (_ & ? & ?). done.
Qed.

(** A run that completes found the directory and read the manifest, and is
    the conversion started in [before_convert]. *)
Lemma main_Ok_start env args w :
  (main env args w).2 = Ok tt ->
  exists json,
    open_json env (manifest_path args) = ReadOk json /\
    main env args w =
    convert_raw_data_to_hdf5 env args
      (trainList (random_sample env) (Json.numTraining json) (split args))
      (validateList (random_sample env) (Json.numTraining json) (split args))
      (Json.training json) (output_path args) (data_path args) json
      (before_convert env args json w).
Proof.
  rewrite main_outcome.
  destruct (_ || _); [|discriminate].
  destruct (open_json env _) as [json| |]; [|discriminate..].
  intros _. by exists json.
Qed.








(** *** Every dataset is filled in the order of its index list *)

Lemma leads_bind {A B} (P Q R : @world F -> Prop) (m : @M F A) (k : A -> @M F B) :
  leads P m Q -> (forall w, Q w -> R w) -> (forall a, leads Q (k a) R) ->
  leads P (bind m k) R.
Proof.
  intros Hm HQR Hk w HP. rewrite bind_run. specialize (Hm w HP).
  destruct (m w) as [w1 [a|e]]; cbn [fst] in *; [by apply Hk | by apply HQR].
Qed.

Lemma leads_post {A} (P Q R : @world F -> Prop) (c : @M F A) :
  leads P c Q -> (forall w, Q w -> R w) -> leads P c R.
Proof. intros Hc HQR w HP. by apply HQR, Hc. Qed.

Lemma absent_after_print dset s :
  leads (fun w => absent w dset) (print s) (fun w => absent w dset).
Proof. by intros w Hd. Qed.

Lemma absent_after_set_attr dset name key value :
  leads (fun w => absent w dset) (set_attr name key value)
        (fun w => absent w dset).
Proof.
  intros w Hd. unfold set_attr.
  destruct (hdf_file w !! name) as [d|] eqn:Hname; [destruct value|];
    cbn [fst]; try exact Hd.
  unfold absent. cbn [set_hdf hdf_file]. rewrite lookup_insert_ne; [exact Hd|].
  intros ->. unfold absent in Hd. congruence.
Qed.

Lemma absent_after_loop dset read dset' first idxs :
  dset <> dset' ->
  leads (fun w => absent w dset) (for_each (save_volume read dset') first idxs)
        (fun w => absent w dset).
Proof.
  intros Hne w Hd. unfold absent. rewrite <- Hd.
  eapply untouched_lookup; [apply untouched_save_loop | exact Hne].
Qed.

Lemma appended_in_order_ext w w' dset read idxs :
  hdf_file w' !! dset = hdf_file w !! dset ->
  appended_in_order w dset read idxs -> appended_in_order w' dset read idxs.
Proof.
  intros Heq [Hd | (k & m & rs & at_ & Hd)]; [left | right].
  - unfold absent. by rewrite Heq.
  - exists k, m, rs, at_. by rewrite Heq.
Qed.

Lemma appended_after_print dset read idxs s :
  leads (fun w => appended_in_order w dset read idxs) (print s)
        (fun w => appended_in_order w dset read idxs).
Proof. by intros w Hd. Qed.

Lemma appended_after_set_attr dset read idxs name key value :
  leads (fun w => appended_in_order w dset read idxs) (set_attr name key value)
        (fun w => appended_in_order w dset read idxs).
Proof.
  intros w Hd. unfold set_attr.
  destruct (hdf_file w !! name) as [d|] eqn:Hname; [destruct value|];
    cbn [fst]; try exact Hd.
  destruct (decide (name = dset)) as [->|Hne].
  - destruct Hd as [Hd | (k & m & rs & at_ & Hd)];
      [unfold absent in Hd; congruence|].
    right. exists k, m, rs. eexists. cbn [set_hdf hdf_file].
    rewrite lookup_insert_eq. rewrite Hd in Hname. injection Hname as <-.
    reflexivity.
  - eapply appended_in_order_ext; [|exact Hd].
    cbn [set_hdf hdf_file]. by rewrite lookup_insert_ne.
Qed.

Lemma appended_after_loop dset read idxs read' dset' first idxs' :
  dset <> dset' ->
  leads (fun w => appended_in_order w dset read idxs)
        (for_each (save_volume read' dset') first idxs')
        (fun w => appended_in_order w dset read idxs).
Proof.
  intros Hne w Hd. eapply appended_in_order_ext; [|exact Hd].
  eapply untouched_lookup; [apply untouched_save_loop | exact Hne].
Qed.

(** A first write that raises has created nothing. *)
Lemma append_volume_true_Raise dset img w w' e :
  append_volume dset true img w = (w', Raise e) ->
  absent w dset -> absent w' dset.
Proof.
  intros Hrun Hd.
  destruct (shape img) as [|n [|d1 [|d2 [|d3 [|d4 sh]]]]] eqn:Hsh.
  5: { rewrite (append_volume_true_fresh _ _ _ _ _ _ _ Hsh Hd) in Hrun.
       discriminate. }
  all: revert Hrun; unfold append_volume, mbind, M_bind, lift; rewrite Hsh;
    cbn [getitem lookup list_lookup]; run_binds;
    intros [= <- _]; exact Hd.
Qed.

(** A loop that finds its dataset, however it ends: the dataset holds what
    it held, then the rows of the leading volumes in the order of the
    indices, then the zero rows of a refused write. *)
Lemma save_loop_append_upto read dset idxs :
  forall w rs rows at_,
    hdf_file w !! dset = Some {| data := NumData rs rows; attrs := at_ |} ->
    exists k m,
      hdf_file (for_each (save_volume read dset) false idxs w).1 !! dset =
      Some {| data := NumData rs
                        (rows
                         ++ flat_map (fun idx => stored_rows rs (read idx))
                                     (take k idxs)
                         ++ replicate m (zeros rs));
              attrs := at_ |}.
Proof.
  induction idxs as [|idx idxs IH]; intros w rs rows at_ Hd.
  - exists 0%nat, 0%nat. cbn. by rewrite app_nil_r.
  - rewrite for_each_cons, save_volume_run.
    destruct (read idx) as [img|e] eqn:Hread.
    2: { exists 0%nat, 0%nat. cbn. by rewrite app_nil_r. }
    destruct (shape img) as [|n sh] eqn:Hsh.
    { rewrite append_volume_scalar by assumption.
      exists 0%nat, 0%nat. cbn. by rewrite app_nil_r. }
    rewrite (append_volume_false _ _ _ _ _ _ _ _ Hsh Hd).
    destruct (broadcastable _ _).
    + match goal with
      | |- context [for_each _ false idxs ?w1] =>
          destruct (IH w1 rs (rows ++ rows_of (broadcast_to (n :: rs) img)) at_)
            as (k & m & Hk); [cbn; apply lookup_insert_eq|]
      end.
      exists (S k), m. rewrite Hk. cbn [take flat_map].
      rewrite Hread. cbn [stored_rows]. rewrite Hsh. cbn [hd].
      by rewrite <- !app_assoc.
    + exists 0%nat, n. cbn [fst set_hdf hdf_file take flat_map app].
      by rewrite lookup_insert_eq.
Qed.

(** A loop that starts without its dataset, however it ends. *)
Lemma save_loop_create_upto read dset idxs :
  leads (fun w => absent w dset) (for_each (save_volume read dset) true idxs)
        (fun w => appended_in_order w dset read idxs).
Proof.
  intros w Hd. destruct idxs as [|idx idxs]; [by left|].
  rewrite for_each_cons, save_volume_run.
  destruct (read idx) as [img|e] eqn:Hread; [|by left].
  destruct (append_volume dset true img w) as [w1 [b1|e]] eqn:Hfirst.
  2: { left. exact (append_volume_true_Raise _ _ _ _ _ Hfirst Hd). }
  destruct (append_volume_true_inv _ _ _ _ _ Hfirst) as (n & d1 & d2 & d3 & Hsh & _).
  rewrite (append_volume_true_fresh _ _ _ _ _ _ _ Hsh Hd) in Hfirst.
  injection Hfirst as <- <-.
  match goal with
  | |- context [for_each _ false idxs ?w1] =>
      destruct (save_loop_append_upto read dset idxs w1 [d1; d2; d3]
                  (rows_of img) ∅) as (k & m & Hk);
        [cbn; apply lookup_insert_eq|]
  end.
  right. exists (S k), m, [d1; d2; d3], ∅. rewrite Hk. cbn [take flat_map].
  rewrite Hread. cbn [stored_rows]. rewrite Hsh. cbn [hd].
  unfold broadcast_to. rewrite decide_True by assumption.
  by rewrite <- !app_assoc.
Qed.

Ltac walk_loops :=
  repeat first
    [ eapply leads_bind;
        [ first [ apply absent_after_print
                | apply absent_after_set_attr
                | apply absent_after_loop; discriminate
                | apply save_loop_create_upto
                | apply appended_after_print
                | apply appended_after_set_attr
                | apply appended_after_loop; discriminate ]
        | first [ by left | done ]
        | intros ? ]
    | eapply leads_post;
        [ first [ apply absent_after_print | apply appended_after_print ]
        | first [ by left | done ] ] ].

(** However the loops end, each dataset is filled in the order of its
    index list. *)
Lemma save_datasets_in_order env args trainIdx validateIdx fileIdx filename
    dataDir json w :
  (forall k, k ∈ growable -> absent w k) ->
  let w' :=
    (save_datasets env args trainIdx validateIdx fileIdx filename dataDir json w).1 in
  appended_in_order w' "imgs_train" (read_image env args dataDir fileIdx) trainIdx /\
  appended_in_order w' "imgs_test" (read_image env args dataDir fileIdx) validateIdx /\
  appended_in_order w' "msks_train" (read_mask env args dataDir fileIdx) trainIdx /\
  appended_in_order w' "msks_test" (read_mask env args dataDir fileIdx) validateIdx.
Proof.
  intros Hfresh. cbv zeta.
  assert (Ha : absent w "imgs_train")
    by (apply Hfresh; unfold growable; rewrite !elem_of_cons; tauto).
  assert (Hb : absent w "imgs_test")
    by (apply Hfresh; unfold growable; rewrite !elem_of_cons; tauto).
  assert (Hc : absent w "msks_train")
    by (apply Hfresh; unfold growable; rewrite !elem_of_cons; tauto).
  assert (Hd : absent w "msks_test")
    by (apply Hfresh; unfold growable; rewrite !elem_of_cons; tauto).
  split_and!.
  - clear Hb Hc Hd Hfresh. revert w Ha.
    change (leads (fun w => absent w "imgs_train")
              (save_datasets env args trainIdx validateIdx fileIdx filename dataDir json)
              (fun w => appended_in_order w "imgs_train"
                          (read_image env args dataDir fileIdx) trainIdx)).
    unfold save_datasets, mbind, M_bind. walk_loops.
  - clear Ha Hc Hd Hfresh. revert w Hb.
    change (leads (fun w => absent w "imgs_test")
              (save_datasets env args trainIdx validateIdx fileIdx filename dataDir json)
              (fun w => appended_in_order w "imgs_test"
                          (read_image env args dataDir fileIdx) validateIdx)).
    unfold save_datasets, mbind, M_bind. walk_loops.
  - clear Ha Hb Hd Hfresh. revert w Hc.
    change (leads (fun w => absent w "msks_train")
              (save_datasets env args trainIdx validateIdx fileIdx filename dataDir json)
              (fun w => appended_in_order w "msks_train"
                          (read_mask env args dataDir fileIdx) trainIdx)).
    unfold save_datasets, mbind, M_bind. walk_loops.
  - clear Ha Hb Hc Hfresh. revert w Hd.
    change (leads (fun w => absent w "msks_test")
              (save_datasets env args trainIdx validateIdx fileIdx filename dataDir json)
              (fun w => appended_in_order w "msks_test"
                          (read_mask env args dataDir fileIdx) validateIdx)).
    unfold save_datasets, mbind, M_bind. walk_loops.
Qed.

(** C10: the splitter yields both index lists in strictly increasing
    order.  Once the conversion has started (the output directory is there
    and the manifest was read), each of the four datasets is filled in the
    order of its index list, however the run ends: at the end of the run a
    dataset is not there yet, or holds the rows of the samples at the
    leading indices of its list, in ascending manifest index order.  A run
    that completes leaves each dataset holding the rows of all the samples
    of its list in that order. *)
Theorem main_writes_in_index_order env args w :
  (forall n ratio,
      StronglySorted lt (trainList (random_sample env) n ratio) /\
      StronglySorted lt (validateList (random_sample env) n ratio)) /\
  (forall json,
      makedirs_ok env (output_dir args) || isdir env (output_dir args) = true ->
      open_json env (manifest_path args) = ReadOk json ->
      let train :=
        trainList (random_sample env) (Json.numTraining json) (split args) in
      let validate :=
        validateList (random_sample env) (Json.numTraining json) (split args) in
      let images := read_image env args (data_path args) (Json.training json) in
      let masks := read_mask env args (data_path args) (Json.training json) in
      appended_in_order (main env args w).1 "imgs_train" images train /\
      appended_in_order (main env args w).1 "imgs_test" images validate /\
      appended_in_order (main env args w).1 "msks_train" masks train /\
      appended_in_order (main env args w).1 "msks_test" masks validate) /\
  ((main env args w).2 = Ok tt ->
   exists json,
     open_json env (manifest_path args) = ReadOk json /\
     let train :=
       trainList (random_sample env) (Json.numTraining json) (split args) in
     let validate :=
       validateList (random_sample env) (Json.numTraining json) (split args) in
     let images := read_image env args (data_path args) (Json.training json) in
     let masks := read_mask env args (data_path args) (Json.training json) in
     dataset_holds (main env args w).1 "imgs_train" images train /\
     dataset_holds (main env args w).1 "imgs_test" images validate /\
     dataset_holds (main env args w).1 "msks_train" masks train /\
     dataset_holds (main env args w).1 "msks_test" masks validate).
Proof.
  split; [|split].
  - intros n ratio. rewrite trainList_filter, validateList_filter.
    split; apply StronglySorted_filter, StronglySorted_lt_seq.
  - intros json Hdir Hjson. cbv zeta.
    rewrite main_outcome, Hdir, Hjson, convert_run.
    apply save_datasets_in_order.
    intros k Hk. unfold absent. cbn [hdf_file].
    by apply metadata_entries_growable.
  - intros Hok. destruct (main_Ok_start _ _ _ Hok) as (json & Hjson & Hrun).
    exists json. split; [exact Hjson|]. rewrite Hrun in Hok |- *.
    apply convert_Ok in Hok as (_ & _ & Hrows). exact Hrows.
Qed.

(** *** What a run that completes has read *)





(** *** What a run that completes leaves in the container *)




Lemma metadata_entries_names (k : string) :
  is_Some ((metadata_entries : gmap string (@dataset F)) !! k) <->
  k ∈ metadata_names.
Proof.
  unfold metadata_entries, metadata_names.
  rewrite !lookup_insert_is_Some', lookup_empty, !elem_of_cons, elem_of_nil.
  split.
  - intros [<-|[<-|[<-|[<-|[<-|[? [=]]]]]]]; tauto.
  - intros [->|[->|[->|[->|[->|[]]]]]]; tauto.
Qed.



(** *** The first write and a write that does not fit *)

(** The first volume of a loop creates its dataset: on a file without the
    name [dset], a volume of four axes leaves the dataset [dset] holding
    exactly the volume's rows, without attributes, and touches nothing else;
    on a file that has the name already, or for a volume of another rank,
    the write raises and the file is as before. *)
Theorem append_volume_first dset img w :
  (forall n d1 d2 d3,
      shape img = [n; d1; d2; d3] -> hdf_file w !! dset = None ->
      (append_volume dset true img w).2 = Ok false /\
      hdf_file (append_volume dset true img w).1 !! dset =
        Some {| data := NumData [d1; d2; d3] (rows_of img); attrs := ∅ |} /\
      untouched [dset] w (append_volume dset true img w).1) /\
  (is_Some (hdf_file w !! dset) \/ length (shape img) <> 4%nat ->
   (exists e, (append_volume dset true img w).2 = Raise e) /\
   hdf_file (append_volume dset true img w).1 = hdf_file w).
Proof.
  split.
  - intros n d1 d2 d3 Hsh Hd.
    pose proof (untouched_append_volume dset true img w) as Hframe.
    rewrite (append_volume_true_fresh _ _ _ _ _ _ _ Hsh Hd) in *.
    cbn [fst snd set_hdf hdf_file]. by rewrite lookup_insert_eq.
  - intros Hbad.
    destruct (append_volume dset true img w) as [w' [b|e]] eqn:Hrun.
    + destruct (append_volume_true_inv _ _ _ _ _ Hrun)
        as (n & d1 & d2 & d3 & Hsh & Hd).
      destruct Hbad as [[d Hsome]|Hrank]; [congruence|].
      rewrite Hsh in Hrank. done.
    + split; [by exists e|]. cbn [fst].
      pose proof (untouched_append_volume dset true img w) as Hframe.
      rewrite Hrun in Hframe. cbn [fst] in Hframe.
      apply map_eq. intros k. destruct (decide (k = dset)) as [->|Hne].
      * destruct (hdf_file w !! dset) as [d|] eqn:Hd.
        { pose proof (append_volume_true_exists dset img d w Hd) as Hsame.
          rewrite Hrun in Hsame. cbn in Hsame. by subst w'. }
        revert Hrun. unfold append_volume, mbind, M_bind, lift.
        destruct (shape img) as [|n [|d1 [|d2 [|d3 [|d4 sh]]]]];
          cbn [getitem lookup list_lookup]; run_binds;
          try (intros [= <- _]; exact Hd).
        destruct Hbad as [[? [=]]|Hrank]; done.
      * apply Hframe. by apply not_in_one.
Qed.

(** A later volume of the dataset's rank whose slices do not fit the
    dataset (an axis that is neither of the dataset's length nor of length
    one) is refused with [TypeError]; the dataset was resized before the
    write, so it is left with the old rows followed by as many zero-filled
    rows as the volume has. *)
Theorem append_volume_misfit dset img (n : nat) sh rs rows at_ w :
  shape img = n :: sh ->
  hdf_file w !! dset = Some {| data := NumData rs rows; attrs := at_ |} ->
  length sh = length rs ->
  broadcastable (n :: sh) (n :: rs) = false ->
  (append_volume dset false img w).2 = Raise (TypeError "Can't broadcast") /\
  hdf_file (append_volume dset false img w).1 !! dset =
    Some {| data := NumData rs (rows ++ replicate n (zeros rs)); attrs := at_ |}.
Proof.
  intros Hsh Hd _ Hfit.
  rewrite (append_volume_false _ _ _ _ _ _ _ _ Hsh Hd), Hfit.
  cbn [fst snd set_hdf hdf_file]. by rewrite lookup_insert_eq.
Qed.

(** *** All rows of a dataset have its row shape *)

#[local] Instance keeps_shape_refl : Reflexive (@keeps_shape F).
Proof. intros w Hw. exact Hw. Qed.

#[local] Instance keeps_shape_trans : Transitive (@keeps_shape F).
Proof. intros w1 w2 w3 H12 H23 Hw. by apply H23, H12. Qed.

Lemma well_shaped_insert name (d : dataset) w :
  (forall rs rows, data d = NumData rs rows -> Forall (fun r => shape r = rs) rows) ->
  well_shaped w ->
  well_shaped (set_hdf (<[name := d]> (hdf_file w)) w).
Proof.
  intros Hnew Hw k d' rs rows. cbn [set_hdf hdf_file].
  destruct (decide (name = k)) as [->|Hne].
  - rewrite lookup_insert_eq. intros [= <-]. apply Hnew.
  - rewrite lookup_insert_ne by assumption. apply Hw.
Qed.

Lemma rows_of_shape {A} (v : ndarray A) :
  Forall (fun r => shape r = tail (shape v)) (rows_of v).
Proof. unfold rows_of. apply Forall_fmap, Forall_true. by intros i. Qed.

Lemma keeps_shape_create name sh maxshape :
  keeps keeps_shape (create_dataset name sh maxshape).
Proof.
  intros w Hw. unfold create_dataset. destruct sh as [|n rs]; [done|].
  destruct (negb _); [done|]. destruct (hdf_file w !! name); [done|].
  cbn [fst]. apply well_shaped_insert; [|done].
  cbn [data]. intros ? ? [= <- <-]. by apply Forall_replicate.
Qed.

Lemma keeps_shape_len name : keeps keeps_shape (dset_len name).
Proof.
  intros w Hw. unfold dset_len.
  destruct (hdf_file w !! name) as [d|]; [by destruct (data d) | done].
Qed.

Lemma keeps_shape_resize name size : keeps keeps_shape (dset_resize name size).
Proof.
  intros w Hw. unfold dset_resize.
  destruct (hdf_file w !! name) as [d|] eqn:Hd; [|done].
  destruct (data d) as [|rs rows] eqn:Hdata; [done|].
  cbn [fst]. apply well_shaped_insert; [|done].
  cbn [data]. intros ? ? [= <- <-].
  apply Forall_take, Forall_app. split; [by eapply Hw|].
  by apply Forall_replicate.
Qed.

Lemma keeps_shape_write name start stop img :
  keeps keeps_shape (dset_write name start stop img).
Proof.
  intros w Hw. unfold dset_write.
  destruct (hdf_file w !! name) as [d|] eqn:Hd; [|done].
  destruct (data d) as [|rs rows] eqn:Hdata; [done|].
  destruct (slice_range _ _ _) as [a count].
  destruct (broadcastable _ _); [|done].
  cbn [fst]. apply well_shaped_insert; [|done].
  cbn [data]. intros ? ? [= <- <-].
  pose proof (Hw _ _ _ _ Hd Hdata) as Hrows.
  apply Forall_app. split; [by apply Forall_take|].
  apply Forall_app. split; [|by apply Forall_drop].
  pose proof (rows_of_shape (broadcast_to (count :: rs) img)) as Hnew.
  by rewrite broadcast_to_shape in Hnew.
Qed.

Lemma keeps_shape_print s : keeps keeps_shape (print s).
Proof. by intros w Hw. Qed.

Lemma keeps_shape_attr name key value :
  keeps keeps_shape (set_attr name key value).
Proof.
  intros w Hw. unfold set_attr.
  destruct (hdf_file w !! name) as [d|] eqn:Hd; [|done].
  destruct value; [done|].
  cbn [fst]. apply well_shaped_insert; [|done].
  cbn [data]. intros rs rows Hdata. by eapply Hw.
Qed.

Lemma well_shaped_metadata w :
  well_shaped (set_hdf metadata_entries w).
Proof.
  intros k d rs rows. cbn [set_hdf hdf_file]. unfold metadata_entries.
  rewrite !lookup_insert, lookup_empty.
  repeat case_decide; first [intros [= <-]; discriminate | discriminate].
Qed.

(** However a conversion ends, every row of every dataset of the
    container has the row shape the dataset was created with: no write
    stores a slice of another shape. *)
Theorem convert_well_shaped env args trainIdx validateIdx fileIdx filename
    dataDir json w :
  well_shaped (convert_raw_data_to_hdf5 env args trainIdx validateIdx fileIdx
                                        filename dataDir json w).1.
Proof.
  rewrite convert_run.
  apply (invariant_save_datasets keeps_shape);
    auto using keeps_shape_create, keeps_shape_len, keeps_shape_resize,
               keeps_shape_write, keeps_shape_print, keeps_shape_attr.
  apply (well_shaped_metadata
           {| console := console w; removed := removed w;
              h5_path := Some filename; hdf_file := hdf_file w |}).
Qed.

(** *** The files the script touches *)

#[local] Instance same_files_refl : Reflexive (@same_files F).
Proof. by intros w. Qed.

#[local] Instance same_files_trans : Transitive (@same_files F).
Proof.
  intros w1 w2 w3 [? ?] [? ?]. unfold same_files. split; congruence.
Qed.




(** However a conversion ends, its container holds the five metadata
    entries and, besides them, nothing but the four datasets: no entry under
    any other name. *)
Theorem convert_entries env args trainIdx validateIdx fileIdx filename dataDir
    json w :
  let file :=
    hdf_file (convert_raw_data_to_hdf5 env args trainIdx validateIdx fileIdx
                                       filename dataDir json w).1 in
  (forall k, k ∈ metadata_names -> is_Some (file !! k)) /\
  (forall k, is_Some (file !! k) -> k ∈ metadata_names ++ growable).
Proof.
  cbv zeta. rewrite convert_run.
  set (w0 := {| console := _; removed := _; h5_path := _; hdf_file := _ |}).
  pose proof (untouched_save_datasets env args trainIdx validateIdx fileIdx
                filename dataDir json w0) as Hframe.
  split; intros k Hk.
  - rewrite Hframe.
    + unfold w0. cbn [hdf_file]. by apply metadata_entries_names.
    + intros Hin. apply metadata_entries_growable in Hin.
      apply metadata_entries_names in Hk. rewrite Hin in Hk.
      by destruct Hk.
  - rewrite elem_of_app. destruct (decide (k ∈ growable)) as [Hin|Hout];
      [by right | left].
    rewrite (Hframe k Hout) in Hk. unfold w0 in Hk. cbn [hdf_file] in Hk.
    by apply metadata_entries_names.
Qed.

(** *** A manifest whose modalities are a mapping *)

Lemma set_attr_mapping name key items w :
  exists e, set_attr name key (Json.Mapping items) w = (w, Raise e).
Proof.
  unfold set_attr. destruct (hdf_file w !! name); eexists; reflexivity.
Qed.

Lemma save_datasets_mapping env args trainIdx validateIdx fileIdx filename
    dataDir json items w :
  Json.modalities json = Json.Mapping items ->
  let run :=
    save_datasets env args trainIdx validateIdx fileIdx filename dataDir json w in
  (exists e, run.2 = Raise e) /\
  forall dset, dset <> "imgs_train" -> absent w dset -> absent run.1 dset.
Proof.
  intros Hmod. cbv zeta. unfold save_datasets, mbind, M_bind.
  rewrite Hmod, bind_print, bind_run.
  set (w1 := (print _ w).1).
  pose proof (absent_after_loop) as Hloop.
  destruct (for_each _ true trainIdx w1) as [w2 [b|e]] eqn:Hrun.
  - rewrite bind_run.
    destruct (set_attr_mapping "imgs_train" "modalities" items w2) as [e ->].
    split; [by exists e|]. intros dset Hne Hd. cbn [fst].
    specialize (Hloop dset (read_image env args dataDir fileIdx) "imgs_train"
                      true trainIdx Hne w1 Hd).
    by rewrite Hrun in Hloop.
  - split; [by exists e|]. intros dset Hne Hd. cbn [fst].
    specialize (Hloop dset (read_image env args dataDir fileIdx) "imgs_train"
                      true trainIdx Hne w1 Hd).
    by rewrite Hrun in Hloop.
Qed.

(** On a manifest whose modalities are a mapping, as the Decathlon
    manifests have them, no run completes: the attribute of line 152 is
    refused (or a statement before it has raised), so the script ends with
    an exception, and its container has at most the training images: no
    validation image and no mask is ever written. *)
Theorem main_on_mapping env args w json items :
  open_json env (manifest_path args) = ReadOk json ->
  Json.modalities json = Json.Mapping items ->
  (exists e, (main env args w).2 = Raise e) /\
  (makedirs_ok env (output_dir args) || isdir env (output_dir args) = true ->
   absent (main env args w).1 "imgs_test" /\
   absent (main env args w).1 "msks_train" /\
   absent (main env args w).1 "msks_test").
Proof.
  intros Hjson Hmod. rewrite main_outcome, Hjson.
  destruct (makedirs_ok env _ || isdir env _);
    [|split; [by eexists | discriminate]].
  rewrite convert_run.
  match goal with
  | |- context [save_datasets ?e ?a ?t ?v ?f ?n ?d ?j ?w0] =>
      destruct (save_datasets_mapping e a t v f n d j items w0 Hmod)
        as [Hraise Habsent]
  end.
  split; [exact Hraise|]. intros _.
  split_and!; apply Habsent; try discriminate;
    unfold absent; cbn [hdf_file]; apply metadata_entries_growable;
    unfold growable; rewrite !elem_of_cons; tauto.
Qed.

End PipelineProofs.

(** ** Intensity normalisation *)

Section NormalizeProofs.
Context {F : Type} `{NumpyFloat F}.






End NormalizeProofs.

(** ** The statements at work on the concrete machine *)

Lemma crop_center_axes_witness :
  exists (out : ndarray Z) (lx ly lz nx ny nz : nat),
    crop_center (demo_label 1) 2 2 2 = Ok out /\
    shape out = [nx; ny; nz] /\
    (forall i j k r,
        get out (i :: j :: k :: r) =
        get (demo_label 1) ((lx + i) :: (ly + j) :: (lz + k) :: r)%nat) /\
    axis_cropped 4 2 lx nx /\
    axis_cropped 5 2 ly ny /\
    axis_cropped 3 2 lz nz.
Proof.
  apply (crop_center_axes (demo_label 1) 4 5 3 [] 2 2 2);
    [reflexivity | cbn; lia].
Defined.

Lemma crop_center_idempotent_witness :
  crop_center (demo_label 1) 2 2 2 = Ok (slice_xyz (demo_label 1) 1 3 1 3 0 2) /\
  exists out',
    crop_center (slice_xyz (demo_label 1) 1 3 1 3 0 2) 2 2 2 = Ok out' /\
    array_eq out' (slice_xyz (demo_label 1) 1 3 1 3 0 2).
Proof.
  split; [reflexivity|].
  apply (crop_center_idempotent (demo_label 1)). reflexivity.
Defined.

Lemma combine_masks_binary_witness :
  (forall idx, in_bounds (shape (demo_label 1)) idx -> 0 <= get (demo_label 1) idx) /\
  shape (combine_masks (demo_label 1)) = shape (demo_label 1) /\
  forall idx, in_bounds (shape (demo_label 1)) idx ->
    (get (combine_masks (demo_label 1)) idx = 0 \/
     get (combine_masks (demo_label 1)) idx = 1) /\
    (get (combine_masks (demo_label 1)) idx = 1 <-> 1 <= get (demo_label 1) idx) /\
    (get (demo_label 1) idx <= 1 ->
     get (combine_masks (demo_label 1)) idx = get (demo_label 1) idx).
Proof.
  assert (Hpos : forall idx, in_bounds (shape (demo_label 1)) idx ->
                             0 <= get (demo_label 1) idx).
  { intros idx _. cbn. apply Z.mod_pos_bound. lia. }
  split; [exact Hpos | exact (combine_masks_binary (demo_label 1) Hpos)].
Defined.

(** A label below zero is kept by the binarisation: the mask is not binary. *)
Lemma combine_masks_binary_counterexample :
  in_bounds (shape signed_label) [0; 0; 0]%nat /\
  get signed_label [0; 0; 0]%nat = -3 /\
  get (combine_masks signed_label) [0; 0; 0]%nat = -3 /\
  ~ (forall idx, in_bounds (shape signed_label) idx ->
       get (combine_masks signed_label) idx = 0 \/
       get (combine_masks signed_label) idx = 1).
Proof.
  assert (Hin : in_bounds (shape signed_label) [0; 0; 0]%nat)
    by (repeat constructor).
  split; [exact Hin|]. split; [reflexivity|]. split; [reflexivity|].
  intros Hall. destruct (Hall _ Hin) as [Hc|Hc]; discriminate Hc.
Qed.

(** C6, as the code has it: the normalised channel need not have a
    standard deviation of 1.  On an image file of integer voxels the
    assignment of line 91 casts each normalised value to an integer: the
    channel 0, 1, 2, 3 has mean 1.5 and a standard deviation of about 1.118;
    its normalised values, about -1.34, -0.45, 0.45 and 1.34, are stored as
    -1, 0, 0 and 1, a channel of standard deviation about 0.707.  On an
    image file of doubles the squares of [np.std] can overflow: the channel
    2^1023, -2^1023 has an infinite standard deviation and is normalised to
    zeros, a channel of standard deviation 0. *)
Theorem normalize_img_loses_unit_std :
  (exists out,
      normalize_img ramp_image = Ok (IntImage out) /\
      shape out = [1; 1; 4; 1]%nat /\
      ravel (take_channel out 0) = [-1; 0; 0; 1] /\
      PrimFloat.ltb
        (fdiv (fsub (of_int 0) (np_mean [1; 1; 4]%nat (of_int <$> [0; 1; 2; 3])))
              (np_std [1; 1; 4]%nat (of_int <$> [0; 1; 2; 3])))
        (PrimFloat.div (float_of_Z (-13)) (float_of_Z 10)) = true /\
      PrimFloat.ltb
        (np_std [1; 1; 4]%nat (of_int <$> ravel (take_channel out 0)))
        (PrimFloat.div (float_of_Z 3) (float_of_Z 4)) = true) /\
  (exists out,
      normalize_img huge_image = Ok (FloatImage out) /\
      shape out = [1; 1; 2; 1]%nat /\
      np_std [1; 1; 2]%nat [huge; PrimFloat.opp huge] = PrimFloat.infinity /\
      PrimFloat.eqb
        (np_std [1; 1; 2]%nat (ravel (take_channel out 0))) PrimFloat.zero = true).
Proof.
  split; (eexists; split; [reflexivity|]; vm_compute; auto).
Qed.

Lemma append_volume_extends_witness :
  hdf_file demo_first_write !! "imgs_train" =
    Some {| data := NumData [2; 2; 2]%nat (rows_of (demo_slab 1)); attrs := ∅ |} /\
  (append_volume "imgs_train" false (demo_slab 2) demo_first_write).2 = Ok false /\
  hdf_file (append_volume "imgs_train" false (demo_slab 2) demo_first_write).1
    !! "imgs_train" =
    Some {| data := NumData [2; 2; 2]%nat
                      (rows_of (demo_slab 1) ++ rows_of (demo_slab 2));
            attrs := ∅ |} /\
  length (rows_of (demo_slab 2)) = 2%nat /\
  untouched ["imgs_train"] demo_first_write
    (append_volume "imgs_train" false (demo_slab 2) demo_first_write).1 /\
  forall w'',
    rtc later_step
        (append_volume "imgs_train" false (demo_slab 2) demo_first_write).1 w'' ->
    has_rows w'' "imgs_train" [2; 2; 2]%nat
             (rows_of (demo_slab 1) ++ rows_of (demo_slab 2)).
Proof.
  assert (Hd : hdf_file demo_first_write !! "imgs_train" =
               Some {| data := NumData [2; 2; 2]%nat (rows_of (demo_slab 1));
                       attrs := ∅ |})
    by (vm_compute; reflexivity).
  split; [exact Hd|].
  destruct (append_volume_extends "imgs_train" (demo_slab 2) 2 [2; 2; 2]%nat
              [2; 2; 2]%nat (rows_of (demo_slab 1)) ∅ demo_first_write
              eq_refl Hd)
    as (new & Hnew & Hlen & _ & Hsame & _ & Hframe & Hlater).
  destruct (Hsame eq_refl) as [Hok ->].
  split; [exact Hok|]. split; [exact Hnew|]. split; [exact Hlen|].
  split; [exact Hframe | exact Hlater].
Defined.

Lemma demo_random_unit (i : nat) :
  (0 <= demo_random i)%Q /\ (demo_random i < 1)%Q.
Proof.
  unfold demo_random. destruct (Nat.even i); split; reflexivity || discriminate.
Qed.

Lemma main_fails_on_extreme_split_witness :
  (forall i, (0 <= random_sample demo_env i)%Q /\ (random_sample demo_env i < 1)%Q) /\
  exists e, (main demo_env (demo_args 1) initial_world).2 = Raise e.
Proof.
  split; [exact demo_random_unit|].
  apply (main_fails_on_extreme_split demo_env (demo_args 1) initial_world);
    [exact demo_random_unit | left; reflexivity].
Defined.

(** With [--split 1.0] the run stops after the (empty) validation loop,
    when it looks up the dataset that loop never created. *)
Example main_split_one :
  (main demo_env (demo_args 1) initial_world).2 = Raise (KeyError "imgs_test").
Proof. vm_compute. reflexivity. Qed.

(** With [--split 0.0] it stops after the (empty) training loop. *)
Example main_split_zero :
  (main demo_env (demo_args 0) initial_world).2 = Raise (KeyError "imgs_train").
Proof. vm_compute. reflexivity. Qed.

Lemma main_without_manifest_witness :
  open_json bare_env (manifest_path (demo_args (85 # 100))) = ReadIOError /\
  (main bare_env (demo_args (85 # 100)) initial_world).2
    = Raise (NameError "experiment_data") /\
  last (console (main bare_env (demo_args (85 # 100)) initial_world).1) =
    Some (Line "File data/dataset.json doesn't exist. It should be part of the Decathlon directory") /\
  h5_path (main bare_env (demo_args (85 # 100)) initial_world).1 = None /\
  hdf_file (main bare_env (demo_args (85 # 100)) initial_world).1 = ∅.
Proof.
  split; [reflexivity|].
  apply (main_without_manifest bare_env (demo_args (85 # 100)) initial_world);
    [reflexivity | left; reflexivity].
Defined.

(** On the concrete task the manifest's name is "BRATS"; the entry [name]
    of the finished container holds one hundred empty strings. *)
Example main_metadata_blank :
  (main demo_env (demo_args (85 # 100)) initial_world).2 = Ok tt /\
  Json.name demo_manifest = "BRATS" /\
  hdf_file (main demo_env (demo_args (85 # 100)) initial_world).1 !! "name" =
    Some {| data := StrData (replicate 100 ""); attrs := ∅ |}.
Proof. vm_compute. auto. Qed.

Lemma main_writes_in_index_order_witness :
  ((main demo_env (demo_args (85 # 100)) initial_world).2 = Ok tt /\
   dataset_holds (main demo_env (demo_args (85 # 100)) initial_world).1 "imgs_train"
     (read_image demo_env (demo_args (85 # 100)) "data/" (Json.training demo_manifest))
     [0; 2]%nat /\
   dataset_holds (main demo_env (demo_args (85 # 100)) initial_world).1 "imgs_test"
     (read_image demo_env (demo_args (85 # 100)) "data/" (Json.training demo_manifest))
     [1]%nat /\
   dataset_holds (main demo_env (demo_args (85 # 100)) initial_world).1 "msks_train"
     (read_mask demo_env (demo_args (85 # 100)) "data/" (Json.training demo_manifest))
     [0; 2]%nat /\
   dataset_holds (main demo_env (demo_args (85 # 100)) initial_world).1 "msks_test"
     (read_mask demo_env (demo_args (85 # 100)) "data/" (Json.training demo_manifest))
     [1]%nat) /\
  ((main demo_env (demo_args 1) initial_world).2 = Raise (KeyError "imgs_test") /\
   (dset_len "imgs_train" (main demo_env (demo_args 1) initial_world).1).2 =
     Ok 6%nat /\
   absent (main demo_env (demo_args 1) initial_world).1 "imgs_test" /\
   appended_in_order (main demo_env (demo_args 1) initial_world).1 "imgs_train"
     (read_image demo_env (demo_args 1) "data/" (Json.training demo_manifest))
     [0; 1; 2]%nat /\
   appended_in_order (main demo_env (demo_args 1) initial_world).1 "imgs_test"
     (read_image demo_env (demo_args 1) "data/" (Json.training demo_manifest))
     [] /\
   appended_in_order (main demo_env (demo_args 1) initial_world).1 "msks_train"
     (read_mask demo_env (demo_args 1) "data/" (Json.training demo_manifest))
     [0; 1; 2]%nat /\
   appended_in_order (main demo_env (demo_args 1) initial_world).1 "msks_test"
     (read_mask demo_env (demo_args 1) "data/" (Json.training demo_manifest))
     []).
Proof.
  assert (Hok : (main demo_env (demo_args (85 # 100)) initial_world).2 = Ok tt)
    by (vm_compute; reflexivity).
  split.
  - split; [exact Hok|].
    destruct (proj2 (proj2 (main_writes_in_index_order demo_env
                              (demo_args (85 # 100)) initial_world)) Hok)
      as (json & Hjson & Hrows).
    injection Hjson as <-. exact Hrows.
  - split; [vm_compute; reflexivity|].
    split; [vm_compute; reflexivity|]. split; [vm_compute; reflexivity|].
    exact (proj1 (proj2 (main_writes_in_index_order demo_env (demo_args 1)
                           initial_world)) demo_manifest eq_refl eq_refl).
Defined.


(** ** More on the crop, the masks and the splitter *)

(** The shape of the crop, for every integer crop size: along each spatial
    axis of length [n] it keeps [max 0 (min s n)] elements (none when the
    size is zero or negative); a trailing axis is kept as it is. *)
Theorem crop_center_shape {A} (img : ndarray A) (x y z : nat) (rest : list nat)
    (cropx cropy cropz : Z) :
  shape img = x :: y :: z :: rest -> (length rest <= 1)%nat ->
  exists out,
    crop_center img cropx cropy cropz = Ok out /\
    shape out = kept x cropx :: kept y cropy :: kept z cropz :: rest.
Proof.
  intros Hsh Hr.
  rewrite (crop_center_unfold img x y z rest) by assumption.
  rewrite (slice_xyz_unfold img x y z rest) by assumption.
  eexists. split; [reflexivity|]. cbn [shape]. unfold kept.
  pose proof (slice_range_crop_len x cropx).
  pose proof (slice_range_crop_len y cropy).
  pose proof (slice_range_crop_len z cropz).
  repeat f_equal; lia.
Qed.

Lemma crop_center_shape_witness :
  shape (demo_label 1) = [4; 5; 3]%nat /\
  exists out,
    crop_center (demo_label 1) 2 (-7) 9 = Ok out /\
    shape out = [2; 0; 3]%nat.
Proof.
  split; [reflexivity|].
  apply (crop_center_shape (demo_label 1) 4 5 3 [] 2 (-7) 9);
    [reflexivity | cbn; lia].
Defined.

(** [crop_center] succeeds exactly on arrays of three or four axes; on any
    other array the unpacking of the shape raises [ValueError]. *)
Theorem crop_center_rank {A} (img : ndarray A) (cropx cropy cropz : Z) :
  ((exists out, crop_center img cropx cropy cropz = Ok out) <->
   (length (shape img) = 3 \/ length (shape img) = 4)%nat) /\
  (crop_center img cropx cropy cropz = Raise (ValueError "unpack") <->
   (length (shape img) <> 3 /\ length (shape img) <> 4)%nat).
Proof.
  unfold crop_center.
  destruct (shape img) as [|x [|y [|z [|c [|d sh]]]]]; cbn [length];
    (split; split; intros Hh);
    first [ lia
          | reflexivity
          | discriminate Hh
          | eexists; reflexivity
          | destruct Hh as [? Hh]; discriminate Hh
          | destruct Hh; lia ].
Qed.

(** A crop at least as large as the volume returns the volume unchanged. *)
Theorem crop_center_whole {A} (img : ndarray A) (x y z : nat) (rest : list nat)
    (cropx cropy cropz : Z) :
  shape img = x :: y :: z :: rest -> (length rest <= 1)%nat ->
  Z.of_nat x <= cropx -> Z.of_nat y <= cropy -> Z.of_nat z <= cropz ->
  exists out,
    crop_center img cropx cropy cropz = Ok out /\ array_eq out img.
Proof.
  intros Hsh Hr Hx Hy Hz.
  rewrite (crop_center_unfold img x y z rest) by assumption.
  rewrite (slice_xyz_unfold img x y z rest) by assumption.
  eexists. split; [reflexivity|].
  pose proof (slice_range_crop_len x cropx) as Lx.
  pose proof (slice_range_crop_len y cropy) as Ly.
  pose proof (slice_range_crop_len z cropz) as Lz.
  pose proof (slice_range_crop_off x cropx ltac:(lia)) as Ox.
  pose proof (slice_range_crop_off y cropy ltac:(lia)) as Oy.
  pose proof (slice_range_crop_off z cropz ltac:(lia)) as Oz.
  unfold crop_start in Ox, Oy, Oz.
  set (rx := slice_range x _ _) in *.
  set (ry := slice_range y _ _) in *.
  set (rz := slice_range z _ _) in *.
  assert (Hnx : rx.2 = x) by lia.
  assert (Hny : ry.2 = y) by lia.
  assert (Hnz : rz.2 = z) by lia.
  assert (Hox : rx.1 = 0%nat) by (Z.div_mod_to_equations; lia).
  assert (Hoy : ry.1 = 0%nat) by (Z.div_mod_to_equations; lia).
  assert (Hoz : rz.1 = 0%nat) by (Z.div_mod_to_equations; lia).
  split; cbn [shape get].
  - rewrite Hsh. congruence.
  - rewrite Hnx, Hny, Hnz, Hox, Hoy, Hoz. intros idx Hb.
    destruct (in_bounds_cons3 _ _ _ _ _ Hb) as (i & j & k & r & -> & _).
    reflexivity.
Qed.

Lemma crop_center_whole_witness :
  shape (demo_label 1) = [4; 5; 3]%nat /\
  exists out,
    crop_center (demo_label 1) 144 144 144 = Ok out /\
    array_eq out (demo_label 1).
Proof.
  split; [reflexivity|].
  apply (crop_center_whole (demo_label 1) 4 5 3 [] 144 144 144);
    [reflexivity | cbn; lia | cbn; lia | cbn; lia | cbn; lia].
Defined.

(** Binarising a mask twice is binarising it once, whatever its values. *)
Theorem combine_masks_idempotent (msk : ndarray Z) :
  array_eq (combine_masks (combine_masks msk)) (combine_masks msk).
Proof.
  split; [reflexivity|]. intros idx _. cbn.
  destruct (Z.ltb_spec 1 (get msk idx)); [reflexivity|].
  destruct (Z.ltb_spec 1 (get msk idx)); [lia | reflexivity].
Qed.

Lemma filter_sublist {A} (p q : A -> bool) (l : list A) :
  (forall x, p x = true -> q x = true) ->
  sublist (List.filter p l) (List.filter q l).
Proof.
  intros Hpq. induction l as [|x l IH]; cbn; [constructor|].
  destruct (p x) eqn:Hp.
  - rewrite (Hpq x Hp). by constructor.
  - destruct (q x); [by constructor | exact IH].
Qed.

Lemma float_lt_Qlt (x r : Q) :
  float_lt (Finite x) (Finite r) = true <-> (x < r)%Q.
Proof. cbn. unfold Qlt. apply Z.ltb_lt. Qed.

Lemma float_ge_Qle (x r : Q) :
  float_ge (Finite x) (Finite r) = true <-> (r <= x)%Q.
Proof. cbn. unfold Qle. apply Z.leb_le. Qed.

(** Raising the split ratio only moves indices from the validation list to
    the training list: for [r1 <= r2] the training list at [r1] is a
    sublist of the one at [r2], and the validation list at [r2] a sublist of
    the one at [r1]. *)
Theorem splitter_monotone (random_sample : nat -> Q) (numFiles : nat) (r1 r2 : Q) :
  (r1 <= r2)%Q ->
  sublist (trainList random_sample numFiles (Finite r1))
          (trainList random_sample numFiles (Finite r2)) /\
  sublist (validateList random_sample numFiles (Finite r2))
          (validateList random_sample numFiles (Finite r1)).
Proof.
  intros Hle. rewrite !trainList_filter, !validateList_filter.
  split; apply filter_sublist; intros i.
  - rewrite !float_lt_Qlt. intros Hlt. eapply Qlt_le_trans; eassumption.
  - rewrite !float_ge_Qle. intros Hge. eapply Qle_trans; eassumption.
Qed.

Lemma splitter_monotone_witness :
  (1 # 2 <= 95 # 100)%Q /\
  sublist (trainList demo_random 3 (Finite (1 # 2)))
          (trainList demo_random 3 (Finite (95 # 100))) /\
  sublist (validateList demo_random 3 (Finite (95 # 100)))
          (validateList demo_random 3 (Finite (1 # 2))).
Proof.
  assert (Hle : (1 # 2 <= 95 # 100)%Q) by discriminate.
  split; [exact Hle | exact (splitter_monotone demo_random 3 _ _ Hle)].
Defined.

(** ** What the loops read: the image and the mask of a sample *)

Lemma crop_center_view {A} (img : ndarray A) (x y z : nat) (rest : list nat)
    (cropx cropy cropz : Z) :
  shape img = x :: y :: z :: rest -> (length rest <= 1)%nat ->
  exists out (ox oy oz : nat),
    crop_center img cropx cropy cropz = Ok out /\
    shape out = kept x cropx :: kept y cropy :: kept z cropz :: rest /\
    forall i j k r,
      get out (i :: j :: k :: r) = get img ((ox + i) :: (oy + j) :: (oz + k) :: r)%nat.
Proof.
  intros Hsh Hr.
  rewrite (crop_center_unfold img x y z rest) by assumption.
  rewrite (slice_xyz_unfold img x y z rest) by assumption.
  eexists _, _, _, _. split; [reflexivity|]. cbn [shape get].
  split; [|reflexivity]. unfold kept.
  pose proof (slice_range_crop_len x cropx).
  pose proof (slice_range_crop_len y cropy).
  pose proof (slice_range_crop_len z cropz).
  repeat f_equal; lia.
Qed.

Section TransformProofs.
Context {F : Type} `{NumpyFloat F}.
Variable env : @environment F.
Variable args : Args.



(** How reading an image fails: an index beyond the manifest's list raises
    [IndexError]; a file that cannot be loaded raises [OSError] for its
    path; a volume without a channel axis passes the crop and raises
    [IndexError] in the normalisation; a volume of any rank other than
    three or four raises [ValueError] in the crop. *)
Theorem read_image_errors (dataDir : string) (fileIdx : list Json.sample)
    (idx : nat) :
  (fileIdx !! idx = None ->
   read_image env args dataDir fileIdx idx =
   Raise (IndexError "index out of range")) /\
  (forall sample,
      fileIdx !! idx = Some sample ->
      load_image env (path_join dataDir (Json.image sample)) = None ->
      read_image env args dataDir fileIdx idx =
      Raise (OSError (path_join dataDir (Json.image sample)))) /\
  (forall sample raw,
      fileIdx !! idx = Some sample ->
      load_image env (path_join dataDir (Json.image sample)) = Some raw ->
      (length (image_shape raw) = 3%nat ->
       read_image env args dataDir fileIdx idx =
       Raise (IndexError "tuple index out of range")) /\
      (length (image_shape raw) <> 3%nat -> length (image_shape raw) <> 4%nat ->
       read_image env args dataDir fileIdx idx = Raise (ValueError "unpack"))).
Proof.
  unfold read_image, mbind, result_bind, getitem, nib_load.
  split; [by intros ->|]. split; [by intros sample -> ->|].
  intros sample raw -> ->. split.
  - intros Hlen. destruct raw as [a|a]; cbn [image_shape on_image] in *;
      unfold mbind, result_bind;
      (destruct (shape a) as [|x [|y [|z [|? ?]]]] eqn:Hsh; try discriminate);
      rewrite (crop_center_unfold a x y z []) by (done || cbn; lia);
      cbn [normalize_img normalize_array]; unfold normalize_array, mbind, result_bind;
      rewrite (slice_xyz_unfold a x y z []) by done; reflexivity.
  - intros H3 H4. destruct raw as [a|a]; cbn [image_shape on_image] in *;
      unfold mbind, result_bind, crop_center;
      destruct (shape a) as [|x [|y [|z [|c [|? ?]]]]]; cbn in *; done.
Qed.

(** The mask of a sample whose file holds a volume of shape (x, y, z): it
    is read, cropped to [cropped], binarised, and handed over with its first
    and third axes exchanged and a channel axis of length one appended, that
    is with shape (z', y', x', 1); each voxel is the cast of the binarised
    label. *)
Theorem read_mask_spec (dataDir : string) (fileIdx : list Json.sample)
    (idx : nat) (sample : Json.sample) (raw : ndarray Z) (x y z : nat) :
  fileIdx !! idx = Some sample ->
  load_label env (path_join dataDir (Json.label sample)) = Some raw ->
  shape raw = [x; y; z] ->
  exists cropped out,
    crop_center raw (resize args) (resize args) (resize args) = Ok cropped /\
    read_mask env args dataDir fileIdx idx = Ok out /\
    shape out = [kept z (resize args); kept y (resize args);
                 kept x (resize args); 1%nat] /\
    forall k j i,
      get out [k; j; i; 0%nat] =
      of_int (if 1 <? get cropped [i; j; k] then 1 else get cropped [i; j; k]).
Proof.
  intros Hidx Hload Hsh.
  destruct (crop_center_view raw x y z [] (resize args) (resize args)
              (resize args) Hsh ltac:(cbn; lia))
    as (cropped & ox & oy & oz & Hcrop & Hcs & _).
  exists cropped. eexists. split; [exact Hcrop|].
  unfold read_mask, mbind, result_bind, getitem, nib_load.
  rewrite Hidx, Hload, Hcrop.
  split; [reflexivity|].
  unfold as_float, expand_dims_last, swapaxes, combine_masks, assign_where, greater.
  cbn [shape get]. rewrite Hcs. split; reflexivity.
Qed.

(** *** Images and masks side by side *)








End TransformProofs.


(** ** The path of the container *)

Lemma append_not_empty (a b : string) : b <> "" -> a +:+ b <> "".
Proof. destruct a; [done | discriminate]. Qed.

Lemma ends_with_sep_app (a b : string) :
  b <> "" -> ends_with_sep (a +:+ b) = ends_with_sep b.
Proof.
  intros Hb. induction a as [|c a IH]; [reflexivity|].
  change (String c a +:+ b) with (String c (a +:+ b)).
  destruct (a +:+ b) eqn:Hab; [by apply append_not_empty in Hab|].
  rewrite <- IH. reflexivity.
Qed.

(** The directory of the container ends with a separator, whatever
    [--save_path] and [--resize] are; a relative [--output_filename] is
    appended to it as it is, and an absolute one (starting with [/]) is the
    path of the container by itself, outside the directory the script
    created. *)
Theorem output_path_cases (args : Args) :
  ends_with_sep (output_dir args) = true /\
  (starts_with_sep (output_filename args) = false ->
   output_path args = output_dir args +:+ output_filename args) /\
  (starts_with_sep (output_filename args) = true ->
   output_path args = output_filename args).
Proof.
  assert (Hdir : ends_with_sep (output_dir args) = true).
  { unfold output_dir, path_join.
    repeat match goal with |- context [if ?b then _ else _] => destruct b end;
      repeat (rewrite ends_with_sep_app
                by (repeat apply append_not_empty; discriminate));
      reflexivity. }
  split; [exact Hdir|]. unfold output_path, path_join.
  split; intros ->; [|reflexivity].
  rewrite Hdir, orb_true_r. reflexivity.
Qed.

Lemma output_path_cases_witness :
  starts_with_sep (output_filename default_args) = false /\
  output_path default_args = "../../data/decathlon/144x144/decathlon_brats.h5" /\
  starts_with_sep (output_filename elsewhere_args) = true /\
  output_dir elsewhere_args = "../../data/decathlon/144x144/" /\
  output_path elsewhere_args = "/tmp/brats.h5".
Proof.
  split; [reflexivity|].
  split; [exact (proj1 (proj2 (output_path_cases default_args)) eq_refl)|].
  split; [reflexivity|]. split; [vm_compute; reflexivity|].
  exact (proj2 (proj2 (output_path_cases elsewhere_args)) eq_refl).
Defined.

(** ** The further statements at work on the concrete machine *)

Lemma main_without_directory_witness :
  makedirs_ok readonly_env (output_dir (demo_args (85 # 100))) = false /\
  isdir readonly_env (output_dir (demo_args (85 # 100))) = false /\
  (main readonly_env (demo_args (85 # 100)) initial_world).2 =
    Raise (OSError "out/2x2/") /\
  console (main readonly_env (demo_args (85 # 100)) initial_world).1 =
    [Line "Converting Decathlon raw Nifti data files to single training and validation HDF5 data file.";
     ReprOf (demo_args (85 # 100))] /\
  removed (main readonly_env (demo_args (85 # 100)) initial_world).1 = [] /\
  h5_path (main readonly_env (demo_args (85 # 100)) initial_world).1 = None /\
  hdf_file (main readonly_env (demo_args (85 # 100)) initial_world).1 = ∅.
Proof.
  split; [reflexivity|]. split; [reflexivity|].
  apply (main_without_directory readonly_env (demo_args (85 # 100)) initial_world);
    reflexivity.
Defined.

Lemma main_with_invalid_manifest_witness :
  open_json garbled_env (manifest_path (demo_args (85 # 100))) = ReadDecodeError /\
  isdir garbled_env (output_dir (demo_args (85 # 100))) = true /\
  (main garbled_env (demo_args (85 # 100)) initial_world).2 =
    Raise (ValueError "JSONDecodeError") /\
  console (main garbled_env (demo_args (85 # 100)) initial_world).1 =
    [Line "Converting Decathlon raw Nifti data files to single training and validation HDF5 data file.";
     ReprOf (demo_args (85 # 100));
     Line "Removing existing data file: out/2x2/decathlon_brats.h5"] /\
  h5_path (main garbled_env (demo_args (85 # 100)) initial_world).1 = None /\
  hdf_file (main garbled_env (demo_args (85 # 100)) initial_world).1 = ∅.
Proof.
  split; [reflexivity|]. split; [reflexivity|].
  apply (main_with_invalid_manifest garbled_env (demo_args (85 # 100)) initial_world);
    [reflexivity | right; reflexivity].
Defined.




Lemma append_volume_first_witness :
  hdf_file initial_world !! "imgs_train" = @None (@dataset PrimFloat.float) /\
  ((append_volume "imgs_train" true (demo_slab 1) initial_world).2 = Ok false /\
   hdf_file (append_volume "imgs_train" true (demo_slab 1) initial_world).1
     !! "imgs_train" =
     Some {| data := NumData [2; 2; 2]%nat (rows_of (demo_slab 1)); attrs := ∅ |} /\
   untouched ["imgs_train"] initial_world
     (append_volume "imgs_train" true (demo_slab 1) initial_world).1) /\
  is_Some (hdf_file demo_first_write !! "imgs_train") /\
  (exists e,
      (append_volume "imgs_train" true (demo_slab 2) demo_first_write).2 = Raise e) /\
  hdf_file (append_volume "imgs_train" true (demo_slab 2) demo_first_write).1 =
    hdf_file demo_first_write.
Proof.
  assert (Hnew : hdf_file initial_world !! "imgs_train"
                 = @None (@dataset PrimFloat.float)) by (vm_compute; reflexivity).
  assert (Hold : is_Some (hdf_file demo_first_write !! "imgs_train"))
    by (vm_compute; eauto).
  split; [exact Hnew|]. split.
  - exact (proj1 (append_volume_first "imgs_train" (demo_slab 1) initial_world)
             2%nat 2%nat 2%nat 2%nat eq_refl Hnew).
  - split; [exact Hold|].
    exact (proj2 (append_volume_first "imgs_train" (demo_slab 2) demo_first_write)
             (or_introl Hold)).
Defined.

Lemma append_volume_misfit_witness :
  hdf_file demo_first_write !! "imgs_train" =
    Some {| data := NumData [2; 2; 2]%nat (rows_of (demo_slab 1)); attrs := ∅ |} /\
  broadcastable [2; 3; 2; 2]%nat [2; 2; 2; 2]%nat = false /\
  (append_volume "imgs_train" false demo_misfit demo_first_write).2 =
    Raise (TypeError "Can't broadcast") /\
  hdf_file (append_volume "imgs_train" false demo_misfit demo_first_write).1
    !! "imgs_train" =
    Some {| data := NumData [2; 2; 2]%nat
                      (rows_of (demo_slab 1) ++ replicate 2 (zeros [2; 2; 2]%nat));
            attrs := ∅ |}.
Proof.
  assert (Hd : hdf_file demo_first_write !! "imgs_train" =
               Some {| data := NumData [2; 2; 2]%nat (rows_of (demo_slab 1));
                       attrs := ∅ |})
    by (vm_compute; reflexivity).
  split; [exact Hd|]. split; [reflexivity|].
  apply (append_volume_misfit "imgs_train" demo_misfit 2 [3; 2; 2]%nat
           [2; 2; 2]%nat (rows_of (demo_slab 1)) ∅ demo_first_write);
    [reflexivity | exact Hd | reflexivity | reflexivity].
Defined.

Lemma main_on_mapping_witness :
  open_json decathlon_env (manifest_path (demo_args (85 # 100))) =
    ReadOk decathlon_manifest /\
  (main decathlon_env (demo_args (85 # 100)) initial_world).2 =
    Raise (TypeError "Object dtype dtype('O') has no native HDF5 equivalent") /\
  (dset_len "imgs_train"
     (main decathlon_env (demo_args (85 # 100)) initial_world).1).2 = Ok 4%nat /\
  (exists e, (main decathlon_env (demo_args (85 # 100)) initial_world).2 = Raise e) /\
  absent (main decathlon_env (demo_args (85 # 100)) initial_world).1 "imgs_test" /\
  absent (main decathlon_env (demo_args (85 # 100)) initial_world).1 "msks_train" /\
  absent (main decathlon_env (demo_args (85 # 100)) initial_world).1 "msks_test".
Proof.
  split; [reflexivity|]. split; [vm_compute; reflexivity|].
  split; [vm_compute; reflexivity|].
  destruct (main_on_mapping decathlon_env (demo_args (85 # 100)) initial_world
              decathlon_manifest [("0", "FLAIR"); ("1", "T1w")] eq_refl eq_refl)
    as [Hraise Habsent].
  split; [exact Hraise | exact (Habsent eq_refl)].
Defined.



Lemma read_image_errors_witness :
  Json.training demo_manifest !! 7%nat = None /\
  read_image demo_env (demo_args (85 # 100)) "data/"
             (Json.training demo_manifest) 7 =
    Raise (IndexError "index out of range") /\
  load_image demo_env "elsewhere/./imagesTr/BRATS_001.nii.gz" = None /\
  read_image demo_env (demo_args (85 # 100)) "elsewhere/"
             (Json.training demo_manifest) 0 =
    Raise (OSError "elsewhere/./imagesTr/BRATS_001.nii.gz").
Proof.
  split; [reflexivity|].
  split; [exact (proj1 (read_image_errors demo_env (demo_args (85 # 100)) "data/"
                          (Json.training demo_manifest) 7) eq_refl)|].
  split; [reflexivity|].
  exact (proj1 (proj2 (read_image_errors demo_env (demo_args (85 # 100))
                         "elsewhere/" (Json.training demo_manifest) 0))
           {| Json.image := "./imagesTr/BRATS_001.nii.gz";
              Json.label := "./labelsTr/BRATS_001.nii.gz" |} eq_refl eq_refl).
Defined.

Lemma read_mask_spec_witness :
  Json.training demo_manifest !! 1%nat =
    Some {| Json.image := "./imagesTr/BRATS_002.nii.gz";
            Json.label := "./labelsTr/BRATS_002.nii.gz" |} /\
  load_label demo_env "data/./labelsTr/BRATS_002.nii.gz" = Some (demo_label 2) /\
  exists cropped out,
    crop_center (demo_label 2) 2 2 2 = Ok cropped /\
    read_mask demo_env (demo_args (85 # 100)) "data/"
              (Json.training demo_manifest) 1 = Ok out /\
    shape out = [2; 2; 2; 1]%nat /\
    forall k j i,
      get out [k; j; i; 0%nat] =
      of_int (if 1 <? get cropped [i; j; k] then 1 else get cropped [i; j; k]).
Proof.
  split; [reflexivity|]. split; [reflexivity|].
  apply (read_mask_spec demo_env (demo_args (85 # 100)) "data/"
           (Json.training demo_manifest) 1
           {| Json.image := "./imagesTr/BRATS_002.nii.gz";
              Json.label := "./labelsTr/BRATS_002.nii.gz" |}
           (demo_label 2) 4 5 3); reflexivity.
Defined.
